(** * OpenMDAO [OptionsDictionary]: a shallow embedding and its properties

    The Python class [openmdao.utils.options_dictionary.OptionsDictionary] is a
    dictionary of pre-declared options.  Every option carries validation
    metadata; writes are re-validated, reads of unset options fail, and a
    deprecation warning is issued once per declaration.

    The embedding keeps the shape of the Python code:
    - Python objects that can be stored in an option are the type [value];
    - exceptions are values of type [exn], raised through an error monad;
    - the object [self] is a record threaded through a state monad, and the
      dictionaries held in [self._dict] are records stored in a [gmap];
    - calls that leave the class ([warn_deprecation], a user supplied
      [check_valid] callable) are recorded in a trace of events.

    The methods embedded are [__init__], [__getstate__], [_raise],
    [_assert_valid], [declare], [undeclare], [update], [__contains__],
    [__setitem__], [__getitem__] and [get], with the module level template
    [check_valid]; [to_table], [__rst__] and [__str__] are embedded around
    the [tabulate] package, which they call and which is not part of the
    sources.  [__repr__], [__iter__] and [items] are left out: they show the
    keys of [self._dict] in the order of their insertion, which the registry
    of this development does not record, and none of the properties below
    depends on that order.  Of the scaling report, whose functions work on
    floating point arrays, only the loop that lays out the slices of
    [compute_jac_view_info] is embedded. *)

From Stdlib Require Import ZArith Lia.
From stdpp Require Import base strings gmap list pretty sorting.

Local Open Scope string_scope.

(** ** Python objects *)

(** The objects an option can hold.  [VUndefined] is the module constant
    [_UNDEFINED]; numbers are Python integers (unbounded) and booleans. *)
Inductive value : Type :=
  | VNone
  | VUndefined
  | VBool (b : bool)
  | VInt (z : Z)
  | VStr (s : string).

(** The classes that [isinstance] is asked about. *)
Inductive pytype : Type :=
  | Tobject | Tbool | Tint | Tfloat | Tstr | TNoneType | TUndefinedType.

(** The three builtin containers accepted for [values] and [types]; a set is
    represented by its elements in iteration order. *)
Inductive seq_kind : Type := KSet | KList | KTuple.

Record container : Type := Container { kind : seq_kind; elems : list value }.


(** [value is None] *)
Definition is_None (v : value) : bool :=
  match v with VNone => true | _ => false end.

(** [type(value)] *)
Definition type_of (v : value) : pytype :=
  match v with
  | VNone => TNoneType
  | VUndefined => TUndefinedType
  | VBool _ => Tbool
  | VInt _ => Tint
  | VStr _ => Tstr
  end.

(** Modelled from the spec: the constant [_UNDEFINED] lives in
    [openmdao.core.constants], which is not among the sources.  The spec only
    asks for a sentinel distinguishable from [None]; it is taken to be an
    instance of a private class, printed as [UNDEFINED], that defines no
    equality or ordering of its own. *)
Definition undefined_class_name : string := "_ReprClass".
Definition undefined_repr : string := "UNDEFINED".

(** [type_.__name__] *)
Definition type_name (t : pytype) : string :=
  match t with
  | Tobject => "object"
  | Tbool => "bool"
  | Tint => "int"
  | Tfloat => "float"
  | Tstr => "str"
  | TNoneType => "NoneType"
  | TUndefinedType => undefined_class_name
  end.

(** [issubclass(type(value), t)]: [bool] is a subclass of [int], and every
    class is a subclass of [object]. *)
Definition isinstance1 (v : value) (t : pytype) : bool :=
  match t, v with
  | Tobject, _ => true
  | Tbool, VBool _ => true
  | Tint, (VBool _ | VInt _) => true
  | Tstr, VStr _ => true
  | TNoneType, VNone => true
  | TUndefinedType, VUndefined => true
  | _, _ => false
  end.

(** The integer a number stands for in arithmetic comparisons
    ([True] is 1 and [False] is 0). *)
Definition as_number (v : value) : option Z :=
  match v with
  | VBool b => Some (if b then 1 else 0)%Z
  | VInt z => Some z
  | _ => None
  end.

(** [a == b] *)
Definition py_eq (a b : value) : bool :=
  match as_number a, as_number b with
  | Some x, Some y => (x =? y)%Z
  | _, _ =>
      match a, b with
      | VNone, VNone => true
      | VUndefined, VUndefined => true
      | VStr s, VStr t => String.eqb s t
      | _, _ => false
      end
  end.

(** [value in values]: some element is identical or equal to [value]. *)
Definition py_in (v : value) (c : container) : bool :=
  existsb (py_eq v) (elems c).

(** [str(value)] *)
Definition py_str (v : value) : string :=
  match v with
  | VNone => "None"
  | VUndefined => undefined_repr
  | VBool true => "True"
  | VBool false => "False"
  | VInt z => pretty z
  | VStr s => s
  end.

(** [repr(value)], as used for the elements of a printed container.  A string
    is shown between single quotes (this is the exact [repr] for strings
    without quotes, backslashes or control characters). *)
Definition py_repr (v : value) : string :=
  match v with
  | VStr s => "'" +:+ s +:+ "'"
  | _ => py_str v
  end.

Fixpoint join (sep : string) (l : list string) : string :=
  match l with
  | [] => EmptyString
  | [x] => x
  | x :: l' => x +:+ sep +:+ join sep l'
  end.

(** [str] of a set, list or tuple whose elements print as [items]. *)
Definition show_seq (k : seq_kind) (items : list string) : string :=
  match k, items with
  | KList, _ => "[" +:+ join ", " items +:+ "]"
  | KTuple, [x] => "(" +:+ x +:+ ",)"
  | KTuple, _ => "(" +:+ join ", " items +:+ ")"
  | KSet, [] => "set()"
  | KSet, _ => "{" +:+ join ", " items +:+ "}"
  end.

Definition container_str (c : container) : string :=
  show_seq (kind c) (map py_repr (elems c)).

(** ** Exceptions and effects *)

Inductive exc_type : Type :=
  | RuntimeError | KeyError | ValueError | TypeError
  | OtherError (cls : string).

Record exn : Type := Exn { exn_type : exc_type; exn_msg : string }.

Inductive result (A : Type) : Type :=
  | Return (a : A)
  | Raised (e : exn).
Arguments Return {A} a.
Arguments Raised {A} e.

(** What the class does to the outside world: a call
    [warn_deprecation(msg)] of [openmdao.utils.om_warnings] (the argument is
    [None] or a string), and a call of a user supplied validator. *)
Inductive event : Type :=
  | WarnDeprecation (msg : option string)
  | CheckValidCall (name : string) (v : value).

(** A method body: from the object state to the new state, the events it
    caused and its result. *)
Definition Eff (S A : Type) : Type := S -> S * list event * result A.

Definition ret {S A} (a : A) : Eff S A := fun s => (s, [], Return a).

Definition bind {S A B} (m : Eff S A) (k : A -> Eff S B) : Eff S B :=
  fun s =>
    match m s with
    | (s1, ev1, Return a) =>
        match k a s1 with
        | (s2, ev2, r) => (s2, (ev1 ++ ev2)%list, r)
        end
    | (s1, ev1, Raised e) => (s1, ev1, Raised e)
    end.

Definition raise {S A} (e : exn) : Eff S A := fun s => (s, [], Raised e).
Definition get_self {S} : Eff S S := fun s => (s, [], Return s).
Definition modify {S} (f : S -> S) : Eff S unit := fun s => (f s, [], Return tt).
Definition emit {S} (e : event) : Eff S unit := fun s => (s, [e], Return tt).

Declare Scope eff_scope.
Delimit Scope eff_scope with eff.
Notation "x <- m ;; k" := (bind m (fun x => k))
  (at level 100, m at next level, right associativity) : eff_scope.
Notation "m ;;; k" := (bind m (fun _ => k))
  (at level 100, right associativity) : eff_scope.

(** A statement guarded by [if b:] with no [else] branch. *)
Definition when_ {S} (b : bool) (m : Eff S unit) : Eff S unit :=
  if b then m else ret tt.

(** State, events and result of a run. *)
Definition state_of {S A} (o : S * list event * result A) : S := fst (fst o).
Definition events_of {S A} (o : S * list event * result A) : list event := snd (fst o).
Definition result_of {S A} (o : S * list event * result A) : result A := snd o.

(** Comparisons raise [TypeError] on operands without a common order. *)
Definition unorderable (op : string) (a b : value) : exn :=
  Exn TypeError ("'" +:+ op +:+ "' not supported between instances of '"
                 +:+ type_name (type_of a) +:+ "' and '"
                 +:+ type_name (type_of b) +:+ "'").

(** [a > b] *)
Definition py_gt (a b : value) : result bool :=
  match as_number a, as_number b with
  | Some x, Some y => Return (x >? y)%Z
  | _, _ =>
      match a, b with
      | VStr s, VStr t => Return (String.ltb t s)
      | _, _ => Raised (unorderable ">" a b)
      end
  end.

(** [a < b] *)
Definition py_lt (a b : value) : result bool :=
  match as_number a, as_number b with
  | Some x, Some y => Return (x <? y)%Z
  | _, _ =>
      match a, b with
      | VStr s, VStr t => Return (String.ltb s t)
      | _, _ => Raised (unorderable "<" a b)
      end
  end.

Definition lift {S A} (r : result A) : Eff S A := fun s => (s, [], r).

(** ** The template validator of the module *)

(** [check_valid(name, value)]: the template always rejects. *)
Definition check_valid (name : string) (v : value) : result unit :=
  Raised (Exn ValueError
            ("Option '" +:+ name +:+ "' with value " +:+ py_str v +:+ " is not valid.")).

(** ** Python strings *)

(** The operations of [str] that the presentation methods use.  A string is
    taken to hold ASCII characters only, so that its length in bytes is the
    [len] of Python. *)

(** [len(s)] *)
Definition py_len (s : string) : Z := Z.of_nat (String.length s).

(** The first [n] characters of [s], and the rest. *)
Fixpoint str_take (n : nat) (s : string) : string :=
  match n, s with
  | S n', String a s' => String a (str_take n' s')
  | _, _ => EmptyString
  end.

Fixpoint str_drop (n : nat) (s : string) : string :=
  match n, s with
  | S n', String _ s' => str_drop n' s'
  | _, _ => s
  end.

(** The position that a slice bound [i] stands for in [s]: a negative bound
    counts from the end, and bounds outside the string are clipped. *)
Definition slice_bound (s : string) (i : Z) : nat :=
  let i := if (i <? 0)%Z then (i + py_len s)%Z else i in
  Z.to_nat (Z.min i (py_len s)).

(** [s[:i]] and [s[i:]] *)
Definition py_slice_to (s : string) (i : Z) : string := str_take (slice_bound s i) s.
Definition py_slice_from (s : string) (i : Z) : string := str_drop (slice_bound s i) s.

(** [c.isspace()] on ASCII: tab to carriage return, the four separators and
    the space. *)
Definition py_isspace (c : Ascii.ascii) : bool :=
  let n := Ascii.nat_of_ascii c in
  ((9 <=? n) && (n <=? 13) || (28 <=? n) && (n <=? 32))%nat.

(** [s.rstrip()] *)
Fixpoint py_rstrip (s : string) : string :=
  match s with
  | EmptyString => EmptyString
  | String a s' =>
      match py_rstrip s' with
      | EmptyString => if py_isspace a then EmptyString else String a EmptyString
      | r => String a r
      end
  end.

(** [s.split()]: the maximal runs of characters that are not spaces. *)
Fixpoint py_split (s : string) : list string :=
  match s with
  | EmptyString => []
  | String a s' =>
      if py_isspace a then py_split s'
      else
        match s' with
        | EmptyString => [String a EmptyString]
        | String b _ =>
            if py_isspace b then String a EmptyString :: py_split s'
            else match py_split s' with
                 | word :: words => String a word :: words
                 | [] => [String a EmptyString]
                 end
        end
  end.

(** [s.split(c)] for a separator of one character: never empty. *)
Fixpoint py_split_on (c : Ascii.ascii) (s : string) : list string :=
  match s with
  | EmptyString => [EmptyString]
  | String a s' =>
      if Ascii.eqb a c then EmptyString :: py_split_on c s'
      else match py_split_on c s' with
           | part :: parts => String a part :: parts
           | [] => [String a EmptyString]
           end
  end.

(** [' ' * n]: empty when [n] is not positive. *)
Definition space_char : Ascii.ascii := Ascii.ascii_of_nat 32.

Fixpoint blank (n : nat) : string :=
  match n with
  | O => EmptyString
  | S n' => String space_char (blank n')
  end.

Definition spaces (n : Z) : string := blank (Z.to_nat n).

(** The line feed, as a character and as a string. *)
Definition newline_char : Ascii.ascii := Ascii.ascii_of_nat 10.
Definition newline : string := String newline_char EmptyString.

(** [sum(l)] *)
Definition py_sum (l : list Z) : Z := fold_right Z.add 0%Z l.

(** ** The slices of the scaling report *)

(** [l[start:stop] = new] for bounds that are not negative: the elements from
    [start] up to [stop] (none if [stop <= start]; bounds beyond the end are
    clipped) give way to [new]. *)
Definition slice_assign {A} (l : list A) (start stop : nat) (new : list A) : list A :=
  (take start l ++ new ++ drop (Nat.max start stop) l)%list.

(** The loop of [compute_jac_view_info] that fills [data['ofslices']] and
    [rownames] from [response_vals] (and, run on [dv_vals], fills
    [data['wrtslices']] and [colnames]): [vals] lists the names with the
    [size] of their arrays, in the order of the dict; the slices are listed
    in the order in which they are stored.  The rest of the function works
    on floating point arrays and is not embedded. *)
Fixpoint fill_slices (vals : list (string * nat)) (start : nat)
    (names : list (option string)) : list (string * (nat * nat)) * list (option string) :=
  match vals with
  | [] => ([], names)
  | (n, size) :: vals' =>
      let stop := (start + size)%nat in
      let names := slice_assign names start stop (replicate (stop - start) (Some n)) in
      let (slices, names) := fill_slices vals' stop names in
      ((n, (start, stop)) :: slices, names)
  end.

(** [sum(v.size for v in vals.values())] *)
Definition total_size (vals : list (string * nat)) : nat :=
  fold_right (fun nv acc => (snd nv + acc)%nat) 0%nat vals.

(** ** The class [OptionsDictionary] *)

Module OptionsDictionary.

Local Open Scope eff_scope.

(** A user supplied [check_valid(name, value)]: it returns, or it raises.  A
    validator is taken to depend on its two arguments only and to leave the
    registry alone. *)
Definition validator : Type := string -> value -> result unit.

(** The module level function [check_valid], under a name that the key
    ['check_valid'] of an entry does not hide. *)
Definition template_check_valid : validator := check_valid.

(** What [types] holds once declared: a class, or a set, list or tuple of
    classes. *)
Inductive types_spec : Type :=
  | OneType (t : pytype)
  | TypeSeq (k : seq_kind) (ts : list pytype).

(** One entry of [self._dict]: the dictionary built by [declare], with its
    keys as fields.  [upper] and [lower] hold [VNone] when there is no
    bound. *)
Record meta : Type := Meta {
  val : value;
  values : option container;
  types : option types_spec;
  desc : string;
  upper : value;
  lower : value;
  check_valid : option validator;
  has_been_set : bool;
  allow_none : bool;
  recordable : bool;
  deprecation : option string;
  need_deprecation : bool
}.

(** [meta['val'] = v], [meta['has_been_set'] = b] and
    [meta['need_deprecation'] = b]. *)
Definition set_val (v : value) (m : meta) : meta :=
  Meta v (values m) (types m) (desc m) (upper m) (lower m) (check_valid m)
       (has_been_set m) (allow_none m) (recordable m) (deprecation m)
       (need_deprecation m).

Definition set_has_been_set (b : bool) (m : meta) : meta :=
  Meta (val m) (values m) (types m) (desc m) (upper m) (lower m) (check_valid m)
       b (allow_none m) (recordable m) (deprecation m) (need_deprecation m).

Definition set_need_deprecation (b : bool) (m : meta) : meta :=
  Meta (val m) (values m) (types m) (desc m) (upper m) (lower m) (check_valid m)
       (has_been_set m) (allow_none m) (recordable m) (deprecation m) b.

(** The attributes of an instance. *)
Record t : Type := Self {
  _dict : gmap string meta;
  _parent_name : option string;
  _read_only : bool;
  _all_recordable : bool
}.

Definition M (A : Type) : Type := Eff t A.

(** [__init__(self, parent_name=None, read_only=False)] *)
Definition __init__ (parent_name : option string) (read_only : bool) : t :=
  Self ∅ parent_name read_only true.

(** [self] with [d] as its [_dict]. *)
Definition with_dict (d : gmap string meta) (self : t) : t :=
  Self d (_parent_name self) (_read_only self) (_all_recordable self).

(** [self._dict[name] = m] *)
Definition dict_setitem (name : string) (m : meta) : M unit :=
  modify (fun self => with_dict (<[name := m]> (_dict self)) self).

(** [del self._dict[name]] *)
Definition dict_delitem (name : string) : M unit :=
  modify (fun self => with_dict (delete name (_dict self)) self).

(** An assignment [meta[key] = x] where [meta] is the dictionary stored at
    [self._dict[name]]: the stored entry itself changes. *)
Definition meta_setitem (name : string) (f : meta -> meta) : M unit :=
  modify (fun self => with_dict (alter f name (_dict self)) self).

(** [self._all_recordable = b] *)
Definition set_all_recordable (b : bool) : M unit :=
  modify (fun self => Self (_dict self) (_parent_name self) (_read_only self) b).

(** [_raise(self, msg, exc_type=RuntimeError)] *)
Definition _raise {A} (msg : string) (exc : exc_type) : M A :=
  self <- get_self;;
  match _parent_name self with
  | None => raise (Exn exc msg)
  | Some parent => raise (Exn exc (parent +:+ ": " +:+ msg))
  end.

(** [isinstance(value, types)]; Python refuses a list or a set of classes. *)
Definition isinstance (v : value) (ts : types_spec) : result bool :=
  match ts with
  | OneType t => Return (isinstance1 v t)
  | TypeSeq KTuple l => Return (existsb (isinstance1 v) l)
  | TypeSeq _ _ =>
      Raised (Exn TypeError
                "isinstance() arg 2 must be a type, a tuple of types, or a union")
  end.

(** The rebinding [if isinstance(value, str): value = f"'{value}'"]. *)
Definition quote_str (v : value) : value :=
  match v with
  | VStr s => VStr ("'" +:+ s +:+ "'")
  | _ => v
  end.

(** [meta['check_valid'](name, value)] *)
Definition call_check_valid (f : validator) (name : string) (v : value) : M unit :=
  emit (CheckValidCall name v);;; lift (f name v).

(** [_assert_valid(self, name, value)] *)
Definition _assert_valid (name : string) (value : value) : M unit :=
  self <- get_self;;
  meta <- match _dict self !! name with
          | Some meta => ret meta
          | None => raise (Exn KeyError name)
          end;;
  when_ (negb (is_None value && allow_none meta))
    ((match values meta with
      | Some vs =>
          when_ (negb (py_in value vs))
            (_raise ("Value (" +:+ py_str (quote_str value) +:+ ") of option '" +:+ name
                     +:+ "' is not one of " +:+ container_str vs +:+ ".") ValueError)
      | None =>
          match types meta with
          | Some ts =>
              ok <- lift (isinstance value ts);;
              when_ (negb ok)
                (let vtype := type_name (type_of value) in
                 match ts with
                 | TypeSeq _ l =>
                     let typs :=
                       show_seq KTuple (map (fun t => py_repr (VStr (type_name t))) l) in
                     _raise ("Value (" +:+ py_str (quote_str value) +:+ ") of option '"
                             +:+ name +:+ "' has type '" +:+ vtype
                             +:+ "', but one of types " +:+ typs +:+ " was expected.")
                            TypeError
                 | OneType ty =>
                     _raise ("Value (" +:+ py_str (quote_str value) +:+ ") of option '"
                             +:+ name +:+ "' has type '" +:+ vtype
                             +:+ "', but type '" +:+ type_name ty +:+ "' was expected.")
                            TypeError
                 end)
          | None => ret tt
          end
      end);;;
     (above <- (if negb (is_None (upper meta))
                then lift (py_gt value (upper meta)) else ret false);;
      when_ above
        (_raise ("Value (" +:+ py_str value +:+ ") of option '" +:+ name
                 +:+ "' exceeds maximum allowed value of " +:+ py_str (upper meta) +:+ ".")
                ValueError));;;
     (below <- (if negb (is_None (lower meta))
                then lift (py_lt value (lower meta)) else ret false);;
      when_ below
        (_raise ("Value (" +:+ py_str value +:+ ") of option '" +:+ name
                 +:+ "' is less than minimum allowed value of " +:+ py_str (lower meta)
                 +:+ ".")
                ValueError)));;;
  match check_valid meta with
  | Some f => call_check_valid f name value
  | None => ret tt
  end.

(** The arguments [values] and [types] of [declare] are arbitrary objects:
    a container, a class, or anything else ([None] included). *)
Inductive values_arg : Type :=
  | ValuesSeq (c : container)
  | ValuesOther (v : value).

Inductive types_arg : Type :=
  | TypesClass (t : pytype)
  | TypesSeq (k : seq_kind) (ts : list pytype)
  | TypesOther (v : value).

(** [values is not None] and [isinstance(values, (set, list, tuple))] *)
Definition values_not_None (a : values_arg) : bool :=
  match a with ValuesOther VNone => false | _ => true end.
Definition values_is_seq (a : values_arg) : bool :=
  match a with ValuesSeq _ => true | _ => false end.
Definition values_str (a : values_arg) : string :=
  match a with ValuesSeq c => container_str c | ValuesOther v => py_str v end.

(** [types is not None], [isinstance(types, (type, set, list, tuple))] and
    [types is bool] *)
Definition types_not_None (a : types_arg) : bool :=
  match a with TypesOther VNone => false | _ => true end.
Definition types_is_type_or_seq (a : types_arg) : bool :=
  match a with TypesClass _ | TypesSeq _ _ => true | TypesOther _ => false end.
Definition types_is_bool (a : types_arg) : bool :=
  match a with TypesClass Tbool => true | _ => false end.
Definition types_str (a : types_arg) : string :=
  match a with
  | TypesClass t => "<class '" +:+ type_name t +:+ "'>"
  | TypesSeq k ts => show_seq k (map (fun t => "<class '" +:+ type_name t +:+ "'>") ts)
  | TypesOther v => py_str v
  end.

(** What is stored under the keys ['values'] and ['types'] once the checks
    on the arguments have passed. *)
Definition stored_values (a : values_arg) : option container :=
  match a with ValuesSeq c => Some c | ValuesOther _ => None end.
Definition stored_types (a : types_arg) : option types_spec :=
  match a with
  | TypesClass t => Some (OneType t)
  | TypesSeq k ts => Some (TypeSeq k ts)
  | TypesOther _ => None
  end.

(** [default is not _UNDEFINED] *)
Definition is_Undefined (v : value) : bool :=
  match v with VUndefined => true | _ => false end.

(** [declare(self, name, default=_UNDEFINED, values=None, types=None, desc='',
    upper=None, lower=None, check_valid=None, allow_none=False,
    recordable=True, deprecation=None)] *)
Definition declare (name : string) (default : value) (values : values_arg)
    (types : types_arg) (desc : string) (upper lower : value)
    (check_valid : option validator) (allow_none recordable : bool)
    (deprecation : option string) : M unit :=
  when_ (values_not_None values && negb (values_is_seq values))
    (_raise ("In declaration of option '" +:+ name
             +:+ "', the 'values' arg must be of type None, list, or tuple - not "
             +:+ values_str values +:+ ".") TypeError);;;
  when_ (types_not_None types && negb (types_is_type_or_seq types))
    (_raise ("In declaration of option '" +:+ name
             +:+ "', the 'types' arg must be None, a type or a tuple - not "
             +:+ types_str types +:+ ".") TypeError);;;
  when_ (types_not_None types && values_not_None values)
    (_raise ("'types' and 'values' were both specified for option '" +:+ name +:+ "'.")
            RuntimeError);;;
  let values :=
    if types_is_bool types
    then ValuesSeq (Container KTuple [VBool true; VBool false]) else values in
  when_ (negb recordable) (set_all_recordable false);;;
  let default_provided := negb (is_Undefined default) in
  let allow_none := if default_provided && is_None default then true else allow_none in
  dict_setitem name
    (Meta default (stored_values values) (stored_types types) desc upper lower
          check_valid default_provided allow_none recordable deprecation
          (bool_decide (is_Some deprecation)));;;
  when_ default_provided (_assert_valid name default).

(** [undeclare(self, name)] *)
Definition undeclare (name : string) : M unit :=
  self <- get_self;;
  when_ (bool_decide (is_Some (_dict self !! name))) (dict_delitem name).

(** [__contains__(self, key)] *)
Definition __contains__ (key : string) : M bool :=
  self <- get_self;;
  ret (bool_decide (is_Some (_dict self !! key))).

(** [warn_deprecation(msg)] *)
Definition warn_deprecation (msg : option string) : M unit :=
  emit (WarnDeprecation msg).

(** [__setitem__(self, name, value)] *)
Definition __setitem__ (name : string) (value : value) : M unit :=
  self <- get_self;;
  meta <- match _dict self !! name with
          | Some meta => ret meta
          | None =>
              _raise ("Option '" +:+ name
                      +:+ "' cannot be set because it has not been declared.") KeyError
          end;;
  when_ (need_deprecation meta)
    (warn_deprecation (deprecation meta);;;
     meta_setitem name (set_need_deprecation false));;;
  when_ (_read_only self)
    (_raise ("Tried to set read-only option '" +:+ name +:+ "'.") KeyError);;;
  _assert_valid name value;;;
  meta_setitem name (set_val value);;;
  meta_setitem name (set_has_been_set true).

(** [__getitem__(self, name)] *)
Definition __getitem__ (name : string) : M value :=
  self <- get_self;;
  meta <- match _dict self !! name with
          | Some meta => ret meta
          | None => _raise ("Option '" +:+ name +:+ "' cannot be found") KeyError
          end;;
  when_ (need_deprecation meta)
    (warn_deprecation (deprecation meta);;;
     meta_setitem name (set_need_deprecation false));;;
  if has_been_set meta
  then ret (val meta)
  else _raise ("Option '" +:+ name +:+ "' is required but has not been set.") RuntimeError.

(** [get(self, name, default=None)] *)
Definition get (name : string) (default : value) : M value :=
  self <- get_self;;
  match _dict self !! name with
  | Some meta => ret (val meta)
  | None => ret default
  end.

(** [for x in l: body(x)] *)
Fixpoint for_each {A} (l : list A) (body : A -> M unit) : M unit :=
  match l with
  | [] => ret tt
  | x :: l' => body x;;; for_each l' body
  end.

(** The argument of [update] is a Python dict: its entries in iteration
    order.  [in_dict[name]] is the value of the entry with key [name]. *)
Definition in_dict_getitem (in_dict : list (string * value)) (name : string) : M value :=
  match find (fun kv => String.eqb (fst kv) name) in_dict with
  | Some kv => ret (snd kv)
  | None => raise (Exn KeyError name)
  end.

(** [update(self, in_dict)] *)
Definition update (in_dict : list (string * value)) : M unit :=
  for_each (map fst in_dict)
    (fun name => v <- in_dict_getitem in_dict name;; __setitem__ name v).

(** ** A client of the class *)

(** The accesses a caller makes through the key interface.  A caller that
    catches the exception of a failed access goes on with the next one, on
    the object as the failed access left it. *)
Inductive access : Type :=
  | Read (name : string)
  | Write (name : string) (v : value)
  | Get (name : string) (default : value).

Definition target (a : access) : string :=
  match a with Read n | Write n _ | Get n _ => n end.

Definition perform (a : access) : M (option value) :=
  match a with
  | Read n => v <- __getitem__ n;; ret (Some v)
  | Write n v => __setitem__ n v;;; ret None
  | Get n d => v <- get n d;; ret (Some v)
  end.

(** The object and the events after a sequence of accesses. *)
Fixpoint run (l : list access) (self : t) : t * list event :=
  match l with
  | [] => (self, [])
  | a :: l' =>
      let o := perform a self in
      let o' := run l' (state_of o) in
      (fst o', (events_of o ++ snd o')%list)
  end.

(** The calls of the deprecation notifier among some events. *)
Definition is_warning (e : event) : bool :=
  match e with WarnDeprecation _ => true | CheckValidCall _ _ => false end.

Definition warnings (evs : list event) : list event := List.filter is_warning evs.

(** The message of an exception raised through [_raise]. *)
Definition full_msg (self : t) (msg : string) : string :=
  match _parent_name self with
  | None => msg
  | Some parent => parent +:+ ": " +:+ msg
  end.

(** The arguments [values] and [types] pass the three checks that open
    [declare], so that the declaration reaches the insertion of the entry. *)
Definition well_formed (values : values_arg) (types : types_arg) : bool :=
  negb (values_not_None values && negb (values_is_seq values))
  && negb (types_not_None types && negb (types_is_type_or_seq types))
  && negb (types_not_None types && values_not_None values).


(** ** Vocabulary of the statements *)

(** A computation that leaves the object alone and never calls the
    deprecation notifier. *)
Definition quiet {A} (m : M A) : Prop :=
  forall self, state_of (m self) = self /\ warnings (events_of (m self)) = [].

(** A computation whose events and result depend on the object only through
    [_parent_name] (the prefix of the messages). *)
Definition parent_only {A} (m : M A) : Prop :=
  forall s1 s2, _parent_name s1 = _parent_name s2 ->
    events_of (m s1) = events_of (m s2) /\ result_of (m s1) = result_of (m s2).

(** The fields of an entry that [_assert_valid] consults. *)
Definition rules (m : meta) :=
  (values m, types m, upper m, lower m, check_valid m, allow_none m).

(** The events and the object after the deprecation step that opens
    [__setitem__] and [__getitem__], for an entry [m] stored under [name]. *)
Definition notice (m : meta) : list event :=
  if need_deprecation m then [WarnDeprecation (deprecation m)] else [].

Definition noticed (name : string) (m : meta) (self : t) : t :=
  with_dict (<[name := set_need_deprecation false m]> (_dict self)) self.

(** The entry left by a successful write of [v] over [m]. *)
Definition written (v : value) (m : meta) : meta :=
  set_has_been_set true (set_val v (set_need_deprecation false m)).

(** The value passes the first check of [_assert_valid]: it is one of
    [values], or else an instance of [types], when the option has them. *)
Definition membership_ok (m : meta) (v : value) : bool :=
  match values m, types m with
  | Some vs, _ => py_in v vs
  | None, Some ts => match isinstance v ts with Return ok => ok | Raised _ => false end
  | None, None => true
  end.

(** The value reaches the type check and fails it. *)
Definition type_check_fails (m : meta) (v : value) : bool :=
  match values m, types m with
  | None, Some ts => match isinstance v ts with Return ok => negb ok | Raised _ => true end
  | _, _ => false
  end.

(** The accesses through [__getitem__] and [__setitem__]. *)
Definition is_get (a : access) : bool :=
  match a with Get _ _ => true | _ => false end.

Definition keyed_on (name : string) (a : access) : Prop :=
  target a = name /\ is_get a = false.

(** Along the sequence [l] of accesses started on [self], no write to [name]
    succeeds. *)
Fixpoint never_written (name : string) (l : list access) (self : t) : Prop :=
  match l with
  | [] => True
  | a :: l' =>
      match a with
      | Write n v => n = name -> exists e, result_of (__setitem__ n v self) = Raised e
      | _ => True
      end
      /\ never_written name l' (state_of (perform a self))
  end.

(** The part of an entry that only a successful write changes. *)
Definition content (name : string) (self : t) : option (value * bool) :=
  (fun m => (val m, has_been_set m)) <$> _dict self !! name.

(** The loop of [update] with the value of each entry at hand. *)
Definition write_all (l : list (string * value)) : M unit :=
  for_each l (fun kv => __setitem__ (fst kv) (snd kv)).

(** ** Registries used as examples *)

(** A registry with one option that allows [None] and carries the template
    validator: [declare('x', check_valid=check_valid, allow_none=True)]. *)
Definition none_with_validator : t :=
  state_of (declare "x" VUndefined (ValuesOther VNone) (TypesOther VNone) EmptyString
                    VNone VNone (Some template_check_valid) true true None
                    (__init__ None false)).

(** [declare('flag', types=bool, allow_none=True)] on a fresh registry. *)
Definition flag_or_none : t :=
  state_of (declare "flag" VUndefined (ValuesOther VNone) (TypesClass Tbool) EmptyString
                    VNone VNone None true true None (__init__ None false)).

(** [declare('iters', default=10, lower=0, upper=100)] and
    [declare('tol', types=float, lower=0, upper=10)] on a fresh registry. *)
Definition iters_registry : t :=
  state_of (declare "iters" (VInt 10) (ValuesOther VNone) (TypesOther VNone) EmptyString
                    (VInt 100) (VInt 0) None false true None (__init__ None false)).

Definition tol_registry : t :=
  state_of (declare "tol" VUndefined (ValuesOther VNone) (TypesClass Tfloat) EmptyString
                    (VInt 10) (VInt 0) None false true None (__init__ None false)).

(** A read-only registry with a deprecated option that has no value yet:
    [declare('old', deprecation='use new')] behind [read_only=True]. *)
Definition read_only_registry : t :=
  state_of (declare "old" VUndefined (ValuesOther VNone) (TypesOther VNone) EmptyString
                    VNone VNone (Some template_check_valid) false true (Some "use new")
                    (__init__ (Some "Driver") true)).

(** [declare('mode', default=5, values=[1, 2])] on a fresh registry. *)
Definition bad_default : t * list event * result unit :=
  declare "mode" (VInt 5) (ValuesSeq (Container KList [VInt 1; VInt 2]))
          (TypesOther VNone) EmptyString VNone VNone None false true None
          (__init__ None false).

(** [declare('mode', values={'fwd', 'rev'}, deprecation='mode is deprecated')]
    on a fresh registry owned by [Comp]. *)
Definition deprecated_mode : t :=
  state_of (declare "mode" VUndefined
                    (ValuesSeq (Container KSet [VStr "fwd"; VStr "rev"]))
                    (TypesOther VNone) EmptyString VNone VNone None false true
                    (Some "mode is deprecated") (__init__ (Some "Comp") false)).

(** [declare('iters', lower=0, upper=100)] on a fresh registry. *)
Definition required_iters : t :=
  state_of (declare "iters" VUndefined (ValuesOther VNone) (TypesOther VNone) EmptyString
                    (VInt 100) (VInt 0) None false true None (__init__ None false)).

(** Two options with bounds, [a] deprecated and [b] not yet set, and the
    update [{'a': 1, 'b': 200, 'c': 3}]. *)
Definition two_options : t :=
  state_of
    ((declare "a" (VInt 0) (ValuesOther VNone) (TypesOther VNone) EmptyString
              (VInt 100) (VInt 0) None false true (Some "a is deprecated");;;
      declare "b" VUndefined (ValuesOther VNone) (TypesOther VNone) EmptyString
              (VInt 100) (VInt 0) None false true None;;;
      declare "c" (VInt 0) (ValuesOther VNone) (TypesOther VNone) EmptyString
              (VInt 100) (VInt 0) None false true None)%eff
       (__init__ None false)).

(** ** The rest of the class and its callers *)

(** [__getstate__(self)]: the attributes of the instance, where [_dict] is
    cut down to the recordable entries unless all of them are known to be
    recordable. *)
Definition __getstate__ : M t :=
  self <- get_self;;
  if _all_recordable self
  then ret self
  else ret (with_dict (filter (fun kv => recordable (snd kv) = true) (_dict self)) self).

(** A call of a method of the class, by the code that owns the registry. *)
Inductive call : Type :=
  | CallDeclare (name : string) (default : value) (values : values_arg) (types : types_arg)
            (desc : string) (upper lower : value) (cv : option validator)
            (an rec : bool) (dep : option string)
  | CallUndeclare (name : string)
  | CallUpdate (in_dict : list (string * value))
  | CallAccess (a : access)
  | CallContains (key : string)
  | CallGetState.

(** The call, its result dropped. *)
Definition invoke (c : call) : M unit :=
  match c with
  | CallDeclare name default values types desc upper lower cv an rec dep =>
      declare name default values types desc upper lower cv an rec dep
  | CallUndeclare name => undeclare name
  | CallUpdate in_dict => update in_dict
  | CallAccess a => perform a;;; ret tt
  | CallContains key => __contains__ key;;; ret tt
  | CallGetState => __getstate__;;; ret tt
  end.

(** The registry after a sequence of calls, each made on the registry as the
    previous one left it, whether it raised or not. *)
Fixpoint after (cs : list call) (self : t) : t :=
  match cs with
  | [] => self
  | c :: cs' => after cs' (state_of (invoke c self))
  end.

(** What a declaration fixes in an entry: everything but the value and the
    two flags that accesses move. *)
Definition declared_part (m : meta) :=
  (values m, types m, desc m, upper m, lower m, check_valid m, allow_none m,
   recordable m, deprecation m).

(** [s'] holds the same options as [s], declared as in [s]; values may have
    been written and notices consumed in between, nothing else. *)
Definition evolves (s s' : t) : Prop :=
  _parent_name s' = _parent_name s
  /\ _read_only s' = _read_only s
  /\ _all_recordable s' = _all_recordable s
  /\ forall k,
       match _dict s !! k, _dict s' !! k with
       | None, None => True
       | Some m, Some m' =>
           declared_part m' = declared_part m
           /\ (has_been_set m = true -> has_been_set m' = true)
           /\ (need_deprecation m = false -> need_deprecation m' = false)
       | _, _ => False
       end.

(** The entry [m] without its custom validator. *)
Definition without_validator (m : meta) : meta :=
  Meta (val m) (values m) (types m) (desc m) (upper m) (lower m) None
       (has_been_set m) (allow_none m) (recordable m) (deprecation m)
       (need_deprecation m).

(** [self] with [read_only] as its [_read_only]. *)
Definition with_read_only (read_only : bool) (self : t) : t :=
  Self (_dict self) (_parent_name self) read_only (_all_recordable self).

(** The exception of [declare] when its arguments are not well formed. *)
Definition declare_error (self : t) (name : string) (values : values_arg)
    (types : types_arg) : exn :=
  if values_not_None values && negb (values_is_seq values) then
    Exn TypeError
        (full_msg self ("In declaration of option '" +:+ name
                        +:+ "', the 'values' arg must be of type None, list, or tuple - not "
                        +:+ values_str values +:+ "."))
  else if types_not_None types && negb (types_is_type_or_seq types) then
    Exn TypeError
        (full_msg self ("In declaration of option '" +:+ name
                        +:+ "', the 'types' arg must be None, a type or a tuple - not "
                        +:+ types_str types +:+ "."))
  else
    Exn RuntimeError
        (full_msg self ("'types' and 'values' were both specified for option '"
                        +:+ name +:+ "'.")).

(** A computation that causes no event at all. *)
Definition eventless {A} (m : M A) : Prop :=
  forall self, events_of (m self) = [].

(** A method that does not look at [_read_only]: on the registry with the
    flag set either way it does the same, and leaves the flag. *)
Definition ignores_read_only {A} (m : M A) : Prop :=
  forall (b : bool) (self : t),
    m (with_read_only b self)
    = (with_read_only b (state_of (m self)), events_of (m self), result_of (m self)).

(** The recordable flag of the registry is right: when it is set, every
    entry is recordable. *)
Definition flag_sound (self : t) : Prop :=
  _all_recordable self = true ->
  forall k m, _dict self !! k = Some m -> recordable m = true.

(** ** The text of the table *)

(** [__rst__(self)]: the lines of the table.  [table] is the text that
    [self.to_table(fmt='rst')] returns; it comes from the [tabulate]
    package, which is not part of the sources. *)
Definition __rst__ (table : string) : list string := py_split_on newline_char table.

(** The loop [while(len(row) > 0)] of [__str__]: what it appends to [text].
    It runs with [desc_len >= 10], so that [len(row)] iterations are enough;
    [fuel] bounds their number. *)
Fixpoint wrap_rest (fuel : nat) (desc_col desc_len : Z) (row : string) : list string :=
  match fuel with
  | O => []
  | S fuel' =>
      if (py_len row >? 0)%Z
      then (spaces desc_col +:+ py_slice_to row desc_len)
             :: wrap_rest fuel' desc_col desc_len (py_slice_from row desc_len)
      else []
  end.

(** The body of the loop [for row in rst] of [__str__]: what it appends to
    [text] for one row. *)
Definition wrap_row (width desc_col desc_len : Z) (row : string) : list string :=
  if (py_len row >? width)%Z then
    py_slice_to row width
      :: (if negb (String.prefix "===" row)
          then let row := py_rstrip (py_slice_from row width) in
               wrap_rest (String.length row) desc_col desc_len row
          else [])
  else [row].

(** The column at which the last column of the table starts: the widths of
    the other columns, read off the first line, and two spaces between
    columns. *)
Definition description_column (rst : list string) : Z :=
  let cols := map py_len (py_split (hd EmptyString rst)) in
  (py_sum (removelast cols) + 2 * (Z.of_nat (length cols) - 1))%Z.

(** [__str__(self, width=100)], on the text [table] that
    [self.to_table(fmt='rst')] returns. *)
Definition __str__ (table : string) (width : Z) : string :=
  let rst := py_split_on newline_char table in
  let desc_col := description_column rst in
  let desc_len := (width - desc_col)%Z in
  if (desc_len <? 10)%Z then join newline rst
  else join newline (concat (map (wrap_row width desc_col desc_len) rst)).

(** The lines of the text that [__str__] returns. *)
Definition str_lines (table : string) (width : Z) : list string :=
  let rst := py_split_on newline_char table in
  let desc_col := description_column rst in
  let desc_len := (width - desc_col)%Z in
  if (desc_len <? 10)%Z then rst
  else concat (map (wrap_row width desc_col desc_len) rst).

(** A table in the [rst] format of [tabulate], with one option. *)
Definition sample_table : string :=
  "========  =========  ============="
  +:+ newline +:+ "Option    Default    Description"
  +:+ newline +:+ "========  =========  ============="
  +:+ newline +:+ "iters     10         The maximum number of iterations allowed   "
  +:+ newline +:+ "========  =========  =============".

(** ** The table of the options *)

(** A cell of the rows that [to_table] hands to [tabulate]: an object, or a
    list of objects. *)
Inductive cell : Type :=
  | Cell (v : value)
  | CellList (l : list value).

(** The first row. *)
Definition table_header : list cell :=
  [Cell (VStr "Option"); Cell (VStr "Default"); Cell (VStr "Acceptable Values");
   Cell (VStr "Acceptable Types"); Cell (VStr "Description"); Cell (VStr "Deprecation")].

(** What the column [Default] shows for the value [v] of an entry:
    [**Required**] for the sentinel, and for an object that prints as
    [<pkg.Class object at ...>] the name of its class. *)
Definition shown_default (v : value) : value :=
  let default := if is_Undefined v then VStr "**Required**" else v in
  let default_str := py_str default in
  match String.index 0 " object at " default_str with
  | Some idx =>
      if bool_decide (String.get 0 default_str = Some (Ascii.ascii_of_nat 60))
      then VStr (List.last (py_split_on (Ascii.ascii_of_nat 46) (str_take idx default_str))
                           EmptyString)
      else default
  | None => default
  end.

(** The body of the loop of [to_table]: the row of the option [key] with the
    entry [options]. *)
Definition table_row (key : string) (options : meta) : list cell :=
  let default := shown_default (val options) in
  let acceptable_values :=
    match values options with
    | Some vs => CellList (elems vs)
    | None => Cell VNone
    end in
  let acceptable_types :=
    match types options with
    | Some (OneType ty) => CellList [VStr (type_name ty)]
    | Some (TypeSeq _ l) => CellList (map (fun ty => VStr (type_name ty)) l)
    | None => Cell VNone
    end in
  match deprecation options with
  | Some msg =>
      [Cell (VStr key); Cell default; acceptable_values; acceptable_types;
       Cell (VStr (desc options)); Cell (VStr msg)]
  | None =>
      [Cell (VStr key); Cell default; acceptable_values; acceptable_types;
       Cell (VStr (desc options))]
  end.

(** [sorted(self._dict.keys())] *)
Definition sorted_keys (self : t) : list string :=
  merge_sort String.le (map fst (map_to_list (_dict self))).

(** The list [tlist] that [to_table] builds. *)
Definition tlist (self : t) : list (list cell) :=
  table_header
    :: omap (fun key => table_row key <$> _dict self !! key) (sorted_keys self).

(** [tabulate(tlist, headers='firstrow', tablefmt=fmt, missingval=missingval)]
    of the [tabulate] package, which is not part of the sources. *)
Definition tabulate_fn : Type := list (list cell) -> string -> string -> string.

(** [to_table(self, fmt='github', missingval='N/A')]; [tabulate] is [None]
    when the package cannot be imported. *)
Definition to_table (tabulate : option tabulate_fn) (fmt missingval : string) : M string :=
  match tabulate with
  | None =>
      raise (Exn (OtherError "ImportError")
                 ("'to_table' requires the tabulate package but it is not currently installed."
                  +:+ " Use `pip install tablulate` or install openmdao with"
                  +:+ " `pip install openmdao[notebooks]`."))
  | Some tabulate =>
      self <- get_self;;
      ret (tabulate (tlist self) fmt missingval)
  end.

(** * Properties *)

(** ** Reasoning about runs *)

Lemma raise_run {A} (msg : string) (exc : exc_type) (self : t) :
  @_raise A msg exc self = (self, [], Raised (Exn exc (full_msg self msg))).
Proof.
  unfold _raise, full_msg, bind, get_self, raise.
  destruct (_parent_name self); reflexivity.
Qed.

Lemma with_dict_id (self : t) : with_dict (_dict self) self = self.
Proof. destruct self; reflexivity. Qed.

Section Quiet.
Context {A B : Type}.

Lemma quiet_ret (a : A) : quiet (ret a).
Proof. intros self; split; reflexivity. Qed.

Lemma quiet_raise (e : exn) : quiet (@raise t A e).
Proof. intros self; split; reflexivity. Qed.

Lemma quiet_lift (r : result A) : quiet (lift r).
Proof. intros self; split; reflexivity. Qed.

Lemma quiet__raise (msg : string) (exc : exc_type) : quiet (@_raise A msg exc).
Proof. intros self; rewrite raise_run; split; reflexivity. Qed.

Lemma quiet_bind (m : M A) (k : A -> M B) :
  quiet m -> (forall a, quiet (k a)) -> quiet (bind m k).
Proof.
  intros Hm Hk self. destruct (Hm self) as [Hs He].
  unfold bind, state_of, events_of in *.
  destruct (m self) as [[s1 ev1] [a|e]]; simpl in *; subst s1.
  - destruct (Hk a self) as [Hs' He']. unfold state_of, events_of in *.
    destruct (k a self) as [[s2 ev2] r]; simpl in *; subst s2.
    split; [reflexivity|]. unfold warnings in *.
    rewrite List.filter_app, He, He'. reflexivity.
  - split; [reflexivity | exact He].
Qed.
End Quiet.

Lemma quiet_get_self : quiet (@get_self t).
Proof. intros self; split; reflexivity. Qed.

Lemma quiet_when (b : bool) (m : M unit) : quiet m -> quiet (when_ b m).
Proof. intros Hm. destruct b; [exact Hm | apply quiet_ret]. Qed.

Lemma quiet_call_check_valid (f : validator) (name : string) (v : value) :
  quiet (call_check_valid f name v).
Proof. intros self. unfold call_check_valid, bind, emit, lift. split; reflexivity. Qed.

Create HintDb quiet.
#[local] Hint Resolve quiet_ret quiet_raise quiet_lift quiet__raise quiet_get_self
  quiet_when quiet_call_check_valid : quiet.

Ltac quiet_step :=
  first
    [ apply quiet_bind; [ | intros ? ]
    | solve [ auto with quiet ]
    | apply quiet_when
    | match goal with
      | |- quiet (match ?x with _ => _ end) => destruct x
      | |- quiet (if ?b then _ else _) => destruct b
      end ].

Lemma quiet_assert_valid (name : string) (v : value) : quiet (_assert_valid name v).
Proof. unfold _assert_valid. repeat quiet_step. Qed.

Lemma assert_valid_triple (name : string) (v : value) (self : t) :
  _assert_valid name v self
  = (self, events_of (_assert_valid name v self), result_of (_assert_valid name v self)).
Proof.
  pose proof (proj1 (quiet_assert_valid name v self)) as Hs.
  unfold state_of, events_of, result_of in *.
  destruct (_assert_valid name v self) as [[s ev] r]. simpl in *. congruence.
Qed.

Lemma quiet_get (name : string) (d : value) : quiet (get name d).
Proof. unfold get. repeat quiet_step. Qed.


Section ParentOnly.
Context {A B : Type}.

Lemma parent_only_const (o : list event) (r : result A) :
  parent_only (fun self => (self, o, r)).
Proof. intros s1 s2 _; split; reflexivity. Qed.

Lemma parent_only__raise (msg : string) (exc : exc_type) :
  parent_only (@_raise A msg exc).
Proof.
  intros s1 s2 Hp. rewrite !raise_run. unfold full_msg. rewrite Hp.
  split; reflexivity.
Qed.

Lemma parent_only_bind (m : M A) (k : A -> M B) :
  quiet m -> parent_only m -> (forall a, parent_only (k a)) ->
  parent_only (bind m k).
Proof.
  intros Hq Hm Hk s1 s2 Hp.
  destruct (Hm s1 s2 Hp) as [He Hr].
  pose proof (proj1 (Hq s1)) as Hs1. pose proof (proj1 (Hq s2)) as Hs2.
  unfold bind, state_of, events_of, result_of in *.
  destruct (m s1) as [[t1 ev1] r1], (m s2) as [[t2 ev2] r2]; simpl in *; subst.
  destruct r2 as [a|e]; [|split; reflexivity].
  destruct (Hk a s1 s2 Hp) as [He' Hr'].
  unfold events_of, result_of in *.
  destruct (k a s1) as [[u1 ev1] r1], (k a s2) as [[u2 ev3] r3]; simpl in *; subst.
  split; reflexivity.
Qed.
End ParentOnly.

Lemma parent_only_when (b : bool) (m : M unit) : parent_only m -> parent_only (when_ b m).
Proof. intros Hm. destruct b; [exact Hm | apply parent_only_const]. Qed.

Ltac parent_only_step :=
  first
    [ apply parent_only_const
    | apply parent_only__raise
    | apply parent_only_when
    | apply parent_only_bind; [ solve [ repeat quiet_step ] | | intros ? ]
    | match goal with
      | |- parent_only (match ?x with _ => _ end) => destruct x
      | |- parent_only (if ?b then _ else _) => destruct b
      end ].

Lemma bind_get_self {A} (k : t -> M A) (self : t) : bind get_self k self = k self self.
Proof. unfold bind, get_self. destruct (k self self) as [[s ev] r]. reflexivity. Qed.

Lemma bind_ret {A B} (a : A) (k : A -> M B) (self : t) : bind (ret a) k self = k a self.
Proof. unfold bind, ret. destruct (k a self) as [[s ev] r]. reflexivity. Qed.

Lemma bind_returned {A B} (m : M A) (k : A -> M B) (self s1 s2 : t)
    (ev ev2 : list event) (a : A) (r : result B) :
  m self = (s1, ev, Return a) -> k a s1 = (s2, ev2, r) ->
  bind m k self = (s2, (ev ++ ev2)%list, r).
Proof. intros H1 H2. unfold bind. rewrite H1, H2. reflexivity. Qed.

Lemma bind_raised {A B} (m : M A) (k : A -> M B) (self s1 : t) (ev : list event) (e : exn) :
  m self = (s1, ev, Raised e) -> bind m k self = (s1, ev, Raised e).
Proof. intros H. unfold bind. rewrite H. reflexivity. Qed.

Lemma assert_valid_frame (name : string) (v : value) (s1 s2 : t) (m1 m2 : meta) :
  _dict s1 !! name = Some m1 -> _dict s2 !! name = Some m2 ->
  _parent_name s1 = _parent_name s2 -> rules m1 = rules m2 ->
  events_of (_assert_valid name v s1) = events_of (_assert_valid name v s2)
  /\ result_of (_assert_valid name v s1) = result_of (_assert_valid name v s2).
Proof.
  intros H1 H2 Hp Hr. unfold rules in Hr.
  injection Hr as Hvalues Htypes Hupper Hlower Hcheck Hallow.
  unfold _assert_valid. rewrite !bind_get_self, H1, H2, !bind_ret.
  rewrite Hvalues, Htypes, Hupper, Hlower, Hcheck, Hallow.
  match goal with
  | |- events_of (?p s1) = _ /\ _ =>
      assert (Hpo : parent_only p)
        by (unfold ret, lift, call_check_valid, emit; repeat parent_only_step)
  end.
  exact (Hpo s1 s2 Hp).
Qed.


Lemma alter_present (f : meta -> meta) (name : string) (d : gmap string meta) (m : meta) :
  d !! name = Some m -> alter f name d = <[name := f m]> d.
Proof.
  intros H. apply map_eq. intros i. destruct (decide (name = i)) as [<-|Hne].
  - rewrite lookup_alter_eq, lookup_insert_eq, H. reflexivity.
  - rewrite lookup_alter_ne, lookup_insert_ne by assumption. reflexivity.
Qed.

Lemma set_need_deprecation_id (m : meta) :
  need_deprecation m = false -> set_need_deprecation false m = m.
Proof. destruct m; simpl; intros ->; reflexivity. Qed.

Lemma deprecation_step (name : string) (m : meta) (self : t) :
  _dict self !! name = Some m ->
  when_ (need_deprecation m)
    (warn_deprecation (deprecation m);;;
     meta_setitem name (set_need_deprecation false)) self
  = (noticed name m self, notice m, Return tt).
Proof.
  intros H. unfold when_, notice, noticed.
  destruct (need_deprecation m) eqn:Hn.
  - unfold bind, warn_deprecation, emit, meta_setitem, modify. simpl.
    rewrite (alter_present _ _ _ _ H). reflexivity.
  - unfold ret. rewrite (set_need_deprecation_id _ Hn), (insert_id _ _ _ H), with_dict_id.
    reflexivity.
Qed.

Lemma setitem_undeclared (name : string) (v : value) (self : t) :
  _dict self !! name = None ->
  __setitem__ name v self =
    (self, [], Raised (Exn KeyError (full_msg self
       ("Option '" +:+ name +:+ "' cannot be set because it has not been declared.")))).
Proof.
  intros H. unfold __setitem__. rewrite bind_get_self, H.
  unfold bind. rewrite raise_run. reflexivity.
Qed.

Lemma assert_valid_noticed (name : string) (v : value) (self : t) (m : meta) :
  _dict self !! name = Some m ->
  _assert_valid name v (noticed name m self)
  = (noticed name m self, events_of (_assert_valid name v self),
     result_of (_assert_valid name v self)).
Proof.
  intros H.
  assert (Hl : _dict (noticed name m self) !! name = Some (set_need_deprecation false m))
    by apply lookup_insert_eq.
  destruct (assert_valid_frame name v _ _ _ _ Hl H eq_refl eq_refl) as [He Hr].
  pose proof (proj1 (quiet_assert_valid name v (noticed name m self))) as Hs.
  unfold state_of, events_of, result_of in *.
  destruct (_assert_valid name v (noticed name m self)) as [[s ev] r]. simpl in *.
  congruence.
Qed.

Lemma setitem_declared (name : string) (v : value) (self : t) (m : meta) :
  _dict self !! name = Some m ->
  __setitem__ name v self =
    if _read_only self
    then (noticed name m self, notice m,
          Raised (Exn KeyError
                    (full_msg self ("Tried to set read-only option '" +:+ name +:+ "'."))))
    else
      let o := _assert_valid name v self in
      match result_of o with
      | Return _ =>
          (with_dict (<[name := written v m]> (_dict self)) self,
           (notice m ++ events_of o)%list, Return tt)
      | Raised e => (noticed name m self, (notice m ++ events_of o)%list, Raised e)
      end.
Proof.
  intros H. unfold __setitem__. rewrite bind_get_self, H, bind_ret.
  pose proof (assert_valid_noticed name v self m H) as Hav.
  destruct (_read_only self) eqn:Hro.
  - etransitivity.
    + eapply bind_returned; [apply (deprecation_step _ _ _ H)|].
      eapply bind_raised. unfold when_. apply raise_run.
    + rewrite List.app_nil_r. reflexivity.
  - destruct (result_of (_assert_valid name v self)) as [[]|e].
    + etransitivity.
      * eapply bind_returned; [apply (deprecation_step _ _ _ H)|].
        unfold when_ at 1. rewrite bind_ret.
        eapply bind_returned; [exact Hav|].
        unfold bind, meta_setitem, modify. simpl. reflexivity.
      * unfold noticed, written, with_dict. simpl.
        rewrite !alter_insert_eq, !List.app_nil_r. reflexivity.
    + eapply bind_returned; [apply (deprecation_step _ _ _ H)|].
      unfold when_ at 1. rewrite bind_ret.
      eapply bind_raised. exact Hav.
Qed.

Lemma getitem_undeclared (name : string) (self : t) :
  _dict self !! name = None ->
  __getitem__ name self =
    (self, [], Raised (Exn KeyError (full_msg self
       ("Option '" +:+ name +:+ "' cannot be found")))).
Proof.
  intros H. unfold __getitem__. rewrite bind_get_self, H.
  unfold bind. rewrite raise_run. reflexivity.
Qed.

Lemma getitem_declared (name : string) (self : t) (m : meta) :
  _dict self !! name = Some m ->
  __getitem__ name self =
    (noticed name m self, notice m,
     if has_been_set m then Return (val m)
     else Raised (Exn RuntimeError
                    (full_msg self ("Option '" +:+ name
                                    +:+ "' is required but has not been set.")))).
Proof.
  intros H. unfold __getitem__. rewrite bind_get_self, H, bind_ret.
  destruct (has_been_set m);
    (etransitivity;
     [ eapply bind_returned;
       [ apply (deprecation_step _ _ _ H) | first [ apply raise_run | reflexivity ] ]
     | rewrite List.app_nil_r; reflexivity ]).
Qed.

Lemma get_run (name : string) (d : value) (self : t) :
  get name d self =
    (self, [], Return (match _dict self !! name with
                       | Some m => val m
                       | None => d
                       end)).
Proof.
  unfold get, bind, get_self, ret. destruct (_dict self !! name); reflexivity.
Qed.


(** ** Validation of [None] *)

(** What [_assert_valid] does on a declared option: the run equations below
    open the definition at an entry [m] stored under [name]. *)
Ltac open_assert_valid H :=
  unfold _assert_valid; rewrite bind_get_self, H, bind_ret.

(** Claim C1, as amended.  When [value is None] and the option allows [None],
    the enumerated-values, type and bounds checks are all skipped, whatever
    [values], [types], [upper] and [lower] hold; the custom validator is not
    part of the skipped block: if the option has one it is called, once, with
    [None], and its outcome is the outcome of the validation.  Without a
    custom validator [None] is accepted and nothing is called. *)
Theorem C1_none_skips_builtin_checks_only (self : t) (name : string) (m : meta) :
  _dict self !! name = Some m ->
  allow_none m = true ->
  _assert_valid name VNone self =
    match check_valid m with
    | None => (self, [], Return tt)
    | Some f => (self, [CheckValidCall name VNone], f name VNone)
    end.
Proof.
  intros H Hallow. open_assert_valid H. rewrite Hallow. simpl.
  unfold when_. rewrite bind_ret.
  destruct (check_valid m) as [f|]; reflexivity.
Qed.

Lemma C1_none_skips_builtin_checks_only_witness :
  _assert_valid "x" VNone none_with_validator =
    (none_with_validator, [CheckValidCall "x" VNone],
     template_check_valid "x" VNone).
Proof.
  exact (C1_none_skips_builtin_checks_only none_with_validator "x"
           (Meta VUndefined None None EmptyString VNone VNone
                 (Some template_check_valid) false true true None false)
           eq_refl eq_refl).
Defined.

(** Claim C1, as stated, fails: the option below allows [None], and yet
    validating [None] calls the custom validator, whose exception is raised;
    a write of [None] is rejected in the same way. *)
Lemma C1_counterexample :
  (allow_none <$> _dict none_with_validator !! "x") = Some true
  /\ events_of (_assert_valid "x" VNone none_with_validator) = [CheckValidCall "x" VNone]
  /\ result_of (_assert_valid "x" VNone none_with_validator)
     = Raised (Exn ValueError "Option 'x' with value None is not valid.")
  /\ result_of (__setitem__ "x" VNone none_with_validator)
     = Raised (Exn ValueError "Option 'x' with value None is not valid.").
Proof. repeat split; vm_compute; reflexivity. Qed.


(** ** Options of type [bool] *)

(** [declare] with well formed arguments inserts the entry it builds. *)
Lemma declare_inserts (self : t) (name : string) (default : value)
    (values : values_arg) (types : types_arg) (desc : string) (upper lower : value)
    (cv : option validator) (an rec : bool) (dep : option string) :
  well_formed values types = true ->
  let m := Meta default
             (stored_values (if types_is_bool types
                             then ValuesSeq (Container KTuple [VBool true; VBool false])
                             else values))
             (stored_types types) desc upper lower cv (negb (is_Undefined default))
             (if negb (is_Undefined default) && is_None default then true else an)
             rec dep (bool_decide (is_Some dep)) in
  let s := Self (<[name := m]> (_dict self)) (_parent_name self) (_read_only self)
                (if rec then _all_recordable self else false) in
  declare name default values types desc upper lower cv an rec dep self
  = if is_Undefined default then (s, [], Return tt)
    else (s, events_of (_assert_valid name default s),
          result_of (_assert_valid name default s)).
Proof.
  intros Hwf m s. unfold well_formed in Hwf.
  apply andb_prop in Hwf as [Hwf H3]. apply andb_prop in Hwf as [H1 H2].
  apply negb_true_iff in H1, H2, H3.
  unfold declare. rewrite H1, H2, H3.
  unfold when_ at 1. rewrite bind_ret.
  unfold when_ at 1. rewrite bind_ret.
  unfold when_ at 1. rewrite bind_ret.
  assert (Hset : forall self', (dict_setitem name m;;;
                    when_ (negb (is_Undefined default)) (_assert_valid name default)) self'
                 = let s' := with_dict (<[name := m]> (_dict self')) self' in
                   if is_Undefined default then (s', [], Return tt)
                   else _assert_valid name default s').
  { intros self'. unfold bind, dict_setitem, modify, when_, ret. simpl.
    destruct (is_Undefined default); simpl; [reflexivity|].
    destruct (_assert_valid name default _) as [[s2 ev2] r2]. reflexivity. }
  fold m.
  destruct rec; simpl negb; unfold when_ at 1.
  - rewrite bind_ret, Hset. simpl.
    change (with_dict (<[name:=m]> (_dict self)) self) with s.
    destruct (is_Undefined default); [reflexivity | apply assert_valid_triple].
  - unfold bind at 1, set_all_recordable at 1, modify at 1. rewrite Hset. simpl.
    change (with_dict _ _) with s.
    destruct (is_Undefined default); [reflexivity|].
    rewrite (assert_valid_triple name default s). reflexivity.
Qed.

Lemma declare_state (self : t) (name : string) (default : value)
    (values : values_arg) (types : types_arg) (desc : string) (upper lower : value)
    (cv : option validator) (an rec : bool) (dep : option string) :
  well_formed values types = true ->
  state_of (declare name default values types desc upper lower cv an rec dep self)
  = Self (<[name :=
             Meta default
               (stored_values (if types_is_bool types
                               then ValuesSeq (Container KTuple [VBool true; VBool false])
                               else values))
               (stored_types types) desc upper lower cv (negb (is_Undefined default))
               (if negb (is_Undefined default) && is_None default then true else an)
               rec dep (bool_decide (is_Some dep))]> (_dict self))
         (_parent_name self) (_read_only self)
         (if rec then _all_recordable self else false).
Proof.
  intros Hwf. rewrite (declare_inserts _ _ _ _ _ _ _ _ _ _ _ _ Hwf).
  destruct (is_Undefined default); reflexivity.
Qed.

(** Claim C2, as amended.  Declaring an option with [types=bool] stores the
    tuple [(True, False)] under ['values'], so the option is validated by
    membership in that tuple.  On a registry that is not read-only: a write
    of [True] or [False] is accepted when the option has no bounds and no
    custom validator; a write of [None] is accepted as well when the option
    allows [None]; and every value that compares equal to neither [True] nor
    [False] (and is not an allowed [None]) is rejected with a [ValueError]
    whose message names [(True, False)], the stored value staying as it
    was. *)
Theorem C2_bool_type_checks_membership (self : t) (name : string) (default : value)
    (desc : string) (upper lower : value) (cv : option validator) (an rec : bool)
    (dep : option string) :
  _read_only self = false ->
  let s := state_of (declare name default (ValuesOther VNone) (TypesClass Tbool) desc
                             upper lower cv an rec dep self) in
  (values <$> _dict s !! name) = Some (Some (Container KTuple [VBool true; VBool false]))
  /\ (forall b : bool, upper = VNone -> lower = VNone -> cv = None ->
        result_of (__setitem__ name (VBool b) s) = Return tt
        /\ (val <$> _dict (state_of (__setitem__ name (VBool b) s)) !! name)
           = Some (VBool b))
  /\ (an || is_None default = true -> cv = None ->
        result_of (__setitem__ name VNone s) = Return tt
        /\ (val <$> _dict (state_of (__setitem__ name VNone s)) !! name) = Some VNone)
  /\ (forall v : value,
        py_eq v (VBool true) = false -> py_eq v (VBool false) = false ->
        is_None v && (an || is_None default) = false ->
        result_of (__setitem__ name v s)
        = Raised (Exn ValueError
                    (full_msg self ("Value (" +:+ py_str (quote_str v) +:+ ") of option '"
                                    +:+ name +:+ "' is not one of (True, False).")))
        /\ (val <$> _dict (state_of (__setitem__ name v s)) !! name) = Some default).
Proof.
  intros Hro s. subst s.
  rewrite (declare_state self name default (ValuesOther VNone) (TypesClass Tbool)
             desc upper lower cv an rec dep eq_refl).
  simpl types_is_bool. cbv iota. simpl stored_values. simpl stored_types.
  match goal with
  | |- context [Self (<[name := ?x]> ?d) ?p ?r ?a] =>
      set (m := x); set (s := Self (<[name := m]> d) p r a)
  end.
  assert (H : _dict s !! name = Some m) by apply lookup_insert_eq.
  assert (Hallow : allow_none m = an || is_None default).
  { subst m. simpl. destruct default, an; reflexivity. }
  assert (Hrun : forall v, __setitem__ name v s =
            match result_of (_assert_valid name v s) with
            | Return _ => (with_dict (<[name := written v m]> (_dict s)) s,
                           (notice m ++ events_of (_assert_valid name v s))%list, Return tt)
            | Raised e => (noticed name m s,
                           (notice m ++ events_of (_assert_valid name v s))%list, Raised e)
            end).
  { intros v. rewrite (setitem_declared _ _ _ _ H). simpl _read_only. rewrite Hro.
    reflexivity. }
  split; [rewrite H; reflexivity|].
  split; [|split].
  - intros b -> -> ->. rewrite Hrun.
    assert (Hok : result_of (_assert_valid name (VBool b) s) = Return tt).
    { open_assert_valid H. destruct b; reflexivity. }
    rewrite Hok. unfold result_of, state_of. simpl.
    rewrite lookup_insert_eq. split; reflexivity.
  - intros Han ->. rewrite Hrun.
    assert (Hok : result_of (_assert_valid name VNone s) = Return tt).
    { open_assert_valid H. rewrite Hallow, Han. reflexivity. }
    rewrite Hok. unfold result_of, state_of. simpl.
    rewrite lookup_insert_eq. split; reflexivity.
  - intros v Ht Hf Hnone. rewrite Hrun.
    assert (Hbad : result_of (_assert_valid name v s)
                   = Raised (Exn ValueError
                       (full_msg self ("Value (" +:+ py_str (quote_str v) +:+ ") of option '"
                                       +:+ name +:+ "' is not one of (True, False)."))) ).
    { open_assert_valid H. rewrite Hallow, Hnone. simpl negb. unfold when_ at 1.
      assert (Hin : py_in v (Container KTuple [VBool true; VBool false]) = false).
      { unfold py_in. simpl. rewrite Ht, Hf. reflexivity. }
      change (values m) with (Some (Container KTuple [VBool true; VBool false])).
      cbv iota beta. rewrite Hin. simpl negb. unfold when_ at 1.
      unfold result_of.
      erewrite bind_raised; [reflexivity|].
      erewrite bind_raised; [reflexivity|].
      rewrite raise_run. reflexivity. }
    rewrite Hbad. unfold result_of, state_of, noticed. simpl.
    rewrite lookup_insert_eq. split; reflexivity.
Qed.

Lemma C2_bool_type_checks_membership_witness :
  result_of (__setitem__ "flag" (VBool true) flag_or_none) = Return tt
  /\ result_of (__setitem__ "flag" VNone flag_or_none) = Return tt
  /\ result_of (__setitem__ "flag" (VInt 2) flag_or_none)
     = Raised (Exn ValueError "Value (2) of option 'flag' is not one of (True, False).")
  /\ result_of (__setitem__ "flag" (VStr "yes") flag_or_none)
     = Raised (Exn ValueError "Value ('yes') of option 'flag' is not one of (True, False).").
Proof.
  destruct (C2_bool_type_checks_membership (__init__ None false) "flag" VUndefined
              EmptyString VNone VNone None true true None eq_refl)
    as (_ & Hbool & Hnone & Hother).
  split; [exact (proj1 (Hbool true eq_refl eq_refl eq_refl))|].
  split; [exact (proj1 (Hnone eq_refl eq_refl))|].
  split.
  - exact (proj1 (Hother (VInt 2) eq_refl eq_refl eq_refl)).
  - exact (proj1 (Hother (VStr "yes") eq_refl eq_refl eq_refl)).
Defined.

(** Claim C2, as stated, fails: the option below is declared with
    [types=bool] and [allow_none=True]; the write of [None], which is neither
    [True] nor [False], is accepted and stored. *)
Lemma C2_counterexample :
  (types <$> _dict flag_or_none !! "flag") = Some (Some (OneType Tbool))
  /\ result_of (__setitem__ "flag" VNone flag_or_none) = Return tt
  /\ (val <$> _dict (state_of (__setitem__ "flag" VNone flag_or_none)) !! "flag")
     = Some VNone.
Proof. repeat split; vm_compute; reflexivity. Qed.

(** Membership in [(True, False)] is decided by [==], so that the integers
    [1] and [0] pass: after [declare('flag', types=bool)] the write of [1] is
    accepted and [1] is what is stored. *)
Example bool_option_stores_one :
  let s := state_of (declare "flag" VUndefined (ValuesOther VNone) (TypesClass Tbool)
                             EmptyString VNone VNone None false true None
                             (__init__ None false)) in
  result_of (__setitem__ "flag" (VInt 1) s) = Return tt
  /\ (val <$> _dict (state_of (__setitem__ "flag" (VInt 1) s)) !! "flag") = Some (VInt 1).
Proof. split; vm_compute; reflexivity. Qed.


(** ** Bounds *)

Lemma py_gt_numbers (a b : value) (x y : Z) :
  as_number a = Some x -> as_number b = Some y -> py_gt a b = Return (x >? y)%Z.
Proof. intros Ha Hb. unfold py_gt. rewrite Ha, Hb. reflexivity. Qed.

Lemma py_lt_numbers (a b : value) (x y : Z) :
  as_number a = Some x -> as_number b = Some y -> py_lt a b = Return (x <? y)%Z.
Proof. intros Ha Hb. unfold py_lt. rewrite Ha, Hb. reflexivity. Qed.

Lemma number_not_None (v : value) (z : Z) : as_number v = Some z -> is_None v = false.
Proof. destruct v; simpl; intros H; try discriminate H; reflexivity. Qed.

Ltac crunch self :=
  unfold _raise, call_check_valid;
  unfold result_of, events_of, state_of, full_msg, bind, ret, lift, when_,
    get_self, raise, emit;
  simpl; destruct (_parent_name self); simpl.

Lemma assert_valid_bounds (self : t) (name : string) (m : meta) (v : value) (z lo hi : Z) :
  _dict self !! name = Some m ->
  as_number v = Some z -> as_number (lower m) = Some lo -> as_number (upper m) = Some hi ->
  membership_ok m v = true ->
  result_of (_assert_valid name v self) =
    if (z >? hi)%Z then
      Raised (Exn ValueError
                (full_msg self ("Value (" +:+ py_str v +:+ ") of option '" +:+ name
                                +:+ "' exceeds maximum allowed value of "
                                +:+ py_str (upper m) +:+ ".")))
    else if (z <? lo)%Z then
      Raised (Exn ValueError
                (full_msg self ("Value (" +:+ py_str v +:+ ") of option '" +:+ name
                                +:+ "' is less than minimum allowed value of "
                                +:+ py_str (lower m) +:+ ".")))
    else match check_valid m with
         | Some f => f name v
         | None => Return tt
         end.
Proof.
  intros H Hv Hlo Hhi Hok. open_assert_valid H.
  rewrite (number_not_None _ _ Hv), (number_not_None _ _ Hlo), (number_not_None _ _ Hhi).
  rewrite (py_gt_numbers _ _ _ _ Hv Hhi), (py_lt_numbers _ _ _ _ Hv Hlo).
  unfold membership_ok in Hok.
  destruct (values m) as [vs|].
  - rewrite Hok. destruct (z >? hi)%Z; [crunch self; reflexivity|].
    destruct (z <? lo)%Z; [crunch self; reflexivity|].
    destruct (check_valid m) as [f|]; crunch self; try reflexivity; destruct (f name v); reflexivity.
  - destruct (types m) as [ts|].
    + destruct (isinstance v ts) as [ok|e]; [|discriminate Hok]. subst ok.
      destruct (z >? hi)%Z; [crunch self; reflexivity|].
      destruct (z <? lo)%Z; [crunch self; reflexivity|].
      destruct (check_valid m) as [f|]; crunch self; try reflexivity; destruct (f name v); reflexivity.
    + destruct (z >? hi)%Z; [crunch self; reflexivity|].
      destruct (z <? lo)%Z; [crunch self; reflexivity|].
      destruct (check_valid m) as [f|]; crunch self; try reflexivity; destruct (f name v); reflexivity.
Qed.

Lemma assert_valid_membership_fails (self : t) (name : string) (m : meta) (v : value) :
  _dict self !! name = Some m -> is_None v = false -> membership_ok m v = false ->
  exists msg,
    result_of (_assert_valid name v self)
    = Raised (Exn (if type_check_fails m v then TypeError else ValueError) msg).
Proof.
  intros H Hv Hbad. open_assert_valid H. rewrite Hv.
  unfold membership_ok in Hbad. unfold type_check_fails.
  destruct (values m) as [vs|].
  - rewrite Hbad. crunch self; eexists; reflexivity.
  - destruct (types m) as [ts|]; [|discriminate Hbad].
    destruct ts as [ty|k l].
    + simpl in *. rewrite Hbad. crunch self; eexists; reflexivity.
    + destruct k; simpl in *; try rewrite Hbad; crunch self; eexists; reflexivity.
Qed.

Lemma noticed_val (name : string) (m : meta) (self : t) (ev : list event)
    (r : result unit) :
  (val <$> _dict (state_of (noticed name m self, ev, r)) !! name) = Some (val m).
Proof. unfold state_of, noticed. simpl. rewrite lookup_insert_eq. reflexivity. Qed.

(** Claim C3, as amended.  On a registry that is not read-only, take an
    option with numeric bounds [lower] and [upper] and a numeric value.
    Whatever [values] or [types] the option has, a value strictly below
    [lower] or strictly above [upper] is rejected and the stored value stays:
    with a [TypeError] when the value first fails the type check, with a
    [ValueError] otherwise.  The bounds are checked once the value has passed
    the [values] or [types] check (or the option has neither): above [upper]
    the error is the maximum error, else below [lower] it is the minimum
    error, and a value within [lower, upper] passes all built-in checks, so
    that the write succeeds unless a custom validator rejects the value. *)
Theorem C3_bounds_follow_membership (self : t) (name : string) (m : meta) (v : value)
    (z lo hi : Z) :
  _read_only self = false ->
  _dict self !! name = Some m ->
  as_number v = Some z ->
  as_number (lower m) = Some lo ->
  as_number (upper m) = Some hi ->
  let o := __setitem__ name v self in
  ((z < lo \/ hi < z)%Z ->
     (exists msg, result_of o
                  = Raised (Exn (if type_check_fails m v then TypeError else ValueError) msg))
     /\ (val <$> _dict (state_of o) !! name) = Some (val m))
  /\ (membership_ok m v = true -> (hi < z)%Z ->
        result_of o
        = Raised (Exn ValueError
                    (full_msg self ("Value (" +:+ py_str v +:+ ") of option '" +:+ name
                                    +:+ "' exceeds maximum allowed value of "
                                    +:+ py_str (upper m) +:+ "."))))
  /\ (membership_ok m v = true -> (z <= hi)%Z -> (z < lo)%Z ->
        result_of o
        = Raised (Exn ValueError
                    (full_msg self ("Value (" +:+ py_str v +:+ ") of option '" +:+ name
                                    +:+ "' is less than minimum allowed value of "
                                    +:+ py_str (lower m) +:+ "."))))
  /\ (membership_ok m v = true -> (lo <= z <= hi)%Z ->
        result_of o = match check_valid m with
                      | Some f => f name v
                      | None => Return tt
                      end
        /\ (result_of o = Return tt ->
            (val <$> _dict (state_of o) !! name) = Some v)).
Proof.
  intros Hro H Hv Hlo Hhi o.
  assert (Hrun : o =
            match result_of (_assert_valid name v self) with
            | Return _ => (with_dict (<[name := written v m]> (_dict self)) self,
                           (notice m ++ events_of (_assert_valid name v self))%list,
                           Return tt)
            | Raised e => (noticed name m self,
                           (notice m ++ events_of (_assert_valid name v self))%list,
                           Raised e)
            end).
  { subst o. rewrite (setitem_declared _ _ _ _ H), Hro. reflexivity. }
  pose proof (assert_valid_bounds self name m v z lo hi H Hv Hlo Hhi) as Hb.
  split; [|split; [|split]].
  - intros Hout. destruct (membership_ok m v) eqn:Hmem.
    + rewrite Hrun, (Hb eq_refl).
      assert (Hty : type_check_fails m v = false).
      { unfold membership_ok in Hmem. unfold type_check_fails.
        destruct (values m); [reflexivity|]. destruct (types m) as [ts|]; [|reflexivity].
        destruct (isinstance v ts); [subst; reflexivity | discriminate Hmem]. }
      rewrite Hty.
      destruct (Z.gtb_spec z hi) as [Hgt|Hle].
      * split; [eexists; reflexivity|]. apply noticed_val.
      * destruct (Z.ltb_spec z lo) as [Hlt|Hge]; [|lia].
        split; [eexists; reflexivity|]. apply noticed_val.
    + destruct (assert_valid_membership_fails self name m v H
                  (number_not_None _ _ Hv) Hmem) as [msg Hmsg].
      rewrite Hrun, Hmsg. split; [exists msg; reflexivity|]. apply noticed_val.
  - intros Hmem Hgt. rewrite Hrun, (Hb Hmem).
    destruct (Z.gtb_spec z hi) as [_|Hle]; [reflexivity | lia].
  - intros Hmem Hle Hlt. rewrite Hrun, (Hb Hmem).
    destruct (Z.gtb_spec z hi) as [Hgt|_]; [lia|].
    destruct (Z.ltb_spec z lo) as [_|Hge]; [reflexivity | lia].
  - intros Hmem [Hge Hle]. rewrite Hrun, (Hb Hmem).
    destruct (Z.gtb_spec z hi) as [Hgt|_]; [lia|].
    destruct (Z.ltb_spec z lo) as [Hlt|_]; [lia|].
    destruct (check_valid m) as [f|].
    + destruct (f name v) as [[]|e]; split; try reflexivity.
      * intros _. unfold state_of. simpl. rewrite lookup_insert_eq. reflexivity.
      * intros Hc. discriminate Hc.
    + split; [reflexivity|]. intros _. unfold state_of. simpl.
      rewrite lookup_insert_eq. reflexivity.
Qed.

Lemma C3_bounds_follow_membership_witness :
  result_of (__setitem__ "iters" (VInt 150) iters_registry)
  = Raised (Exn ValueError
              "Value (150) of option 'iters' exceeds maximum allowed value of 100.")
  /\ result_of (__setitem__ "iters" (VInt (-1)) iters_registry)
     = Raised (Exn ValueError
                 "Value (-1) of option 'iters' is less than minimum allowed value of 0.")
  /\ result_of (__setitem__ "iters" (VInt 50) iters_registry) = Return tt.
Proof.
  pose (m := Meta (VInt 10) None None EmptyString (VInt 100) (VInt 0) None true false
                  true None false).
  split; [|split].
  - exact (proj1 (proj2 (C3_bounds_follow_membership iters_registry "iters" m (VInt 150)
                           150 0 100 eq_refl eq_refl eq_refl eq_refl eq_refl))
             eq_refl eq_refl).
  - exact (proj1 (proj2 (proj2 (C3_bounds_follow_membership iters_registry "iters" m
                                  (VInt (-1)) (-1) 0 100
                                  eq_refl eq_refl eq_refl eq_refl eq_refl)))
             eq_refl ltac:(lia) eq_refl).
  - exact (proj1 (proj2 (proj2 (proj2 (C3_bounds_follow_membership iters_registry "iters"
                                         m (VInt 50) 50 0 100
                                         eq_refl eq_refl eq_refl eq_refl eq_refl)))
                    eq_refl ltac:(lia))).
Defined.

(** Claim C3, as stated, fails: the option below has both bounds and
    [types=float]; the integer [50] is strictly above [upper], and the write
    is rejected by the type check, with a [TypeError], before any bound is
    looked at. *)
Lemma C3_counterexample :
  (upper <$> _dict tol_registry !! "tol") = Some (VInt 10)
  /\ (lower <$> _dict tol_registry !! "tol") = Some (VInt 0)
  /\ result_of (__setitem__ "tol" (VInt 50) tol_registry)
     = Raised (Exn TypeError
                 "Value (50) of option 'tol' has type 'int', but type 'float' was expected.").
Proof. repeat split; vm_compute; reflexivity. Qed.

(** ** Read-only registries *)

(** Claim C5.  On a read-only registry, a write to a declared option raises
    the read-only [KeyError]; the validation is never run (no validator is
    called, whatever the rules of the option), and for every option of the
    registry the stored value and [has_been_set] are what they were. *)
Theorem C5_read_only_rejects_writes (self : t) (name : string) (v : value) (m : meta) :
  _read_only self = true ->
  _dict self !! name = Some m ->
  let o := __setitem__ name v self in
  result_of o
  = Raised (Exn KeyError (full_msg self ("Tried to set read-only option '" +:+ name +:+ "'.")))
  /\ (forall n v', ~ In (CheckValidCall n v') (events_of o))
  /\ (forall n, (val <$> _dict (state_of o) !! n) = (val <$> _dict self !! n)
                /\ (has_been_set <$> _dict (state_of o) !! n)
                   = (has_been_set <$> _dict self !! n)).
Proof.
  intros Hro H o. subst o. rewrite (setitem_declared _ _ _ _ H), Hro.
  unfold result_of, events_of, state_of, noticed, notice. simpl.
  split; [reflexivity|]. split.
  - intros n v' Hin. destruct (need_deprecation m); simpl in Hin.
    + destruct Hin as [Hin|[]]. discriminate Hin.
    + exact Hin.
  - intros n. destruct (decide (name = n)) as [<-|Hne].
    + rewrite lookup_insert_eq, H. split; reflexivity.
    + rewrite lookup_insert_ne by exact Hne. split; reflexivity.
Qed.

Lemma C5_read_only_rejects_writes_witness :
  result_of (__setitem__ "old" (VInt 3) read_only_registry)
  = Raised (Exn KeyError "Driver: Tried to set read-only option 'old'.")
  /\ (val <$> _dict (state_of (__setitem__ "old" (VInt 3) read_only_registry)) !! "old")
     = Some VUndefined
  /\ (has_been_set <$> _dict (state_of (__setitem__ "old" (VInt 3) read_only_registry)) !! "old")
     = Some false.
Proof.
  destruct (C5_read_only_rejects_writes read_only_registry "old" (VInt 3)
              (Meta VUndefined None None EmptyString VNone VNone
                    (Some template_check_valid) false false true (Some "use new") true)
              eq_refl eq_refl) as (Hr & _ & Hs).
  split; [exact Hr|]. exact (Hs "old").
Defined.

(** Claim C10.  On a read-only registry, a write to a declared option whose
    deprecation warning is pending calls the notifier with the message of
    the option, then raises the read-only [KeyError]; in the registry
    nothing has changed but the flag ['need_deprecation'] of that option,
    which is now [False]. *)
Theorem C10_read_only_write_consumes_notice (self : t) (name : string) (v : value)
    (m : meta) :
  _read_only self = true ->
  _dict self !! name = Some m ->
  need_deprecation m = true ->
  __setitem__ name v self
  = (with_dict (<[name := set_need_deprecation false m]> (_dict self)) self,
     [WarnDeprecation (deprecation m)],
     Raised (Exn KeyError
               (full_msg self ("Tried to set read-only option '" +:+ name +:+ "'.")))).
Proof.
  intros Hro H Hn. rewrite (setitem_declared _ _ _ _ H), Hro.
  unfold notice, noticed. rewrite Hn. reflexivity.
Qed.

Lemma C10_read_only_write_consumes_notice_witness :
  events_of (__setitem__ "old" (VInt 3) read_only_registry)
  = [WarnDeprecation (Some "use new")]
  /\ result_of (__setitem__ "old" (VInt 3) read_only_registry)
     = Raised (Exn KeyError "Driver: Tried to set read-only option 'old'.")
  /\ _dict (state_of (__setitem__ "old" (VInt 3) read_only_registry)) !! "old"
     = Some (Meta VUndefined None None EmptyString VNone VNone
                  (Some template_check_valid) false false true (Some "use new") false).
Proof.
  rewrite (C10_read_only_write_consumes_notice read_only_registry "old" (VInt 3)
             (Meta VUndefined None None EmptyString VNone VNone
                   (Some template_check_valid) false false true (Some "use new") true)
             eq_refl eq_refl eq_refl).
  repeat split; reflexivity.
Defined.

(** ** Declaration with an invalid default *)

(** Claim C9.  [declare] stores the entry before it validates the default.
    When the arguments are well formed, a default is given and [declare]
    raises (which can then only come from validating the default), the
    registry nevertheless holds the option, with the rejected default as its
    value and ['has_been_set'] true, and a later read returns that default
    without any error. *)
Theorem C9_failed_declare_keeps_entry (self : t) (name : string) (default : value)
    (values : values_arg) (types : types_arg) (desc : string) (upper lower : value)
    (cv : option validator) (an rec : bool) (dep : option string) (e : exn) :
  well_formed values types = true ->
  let o := declare name default values types desc upper lower cv an rec dep self in
  result_of o = Raised e ->
  is_Undefined default = false
  /\ result_of o = result_of (_assert_valid name default (state_of o))
  /\ (val <$> _dict (state_of o) !! name) = Some default
  /\ (has_been_set <$> _dict (state_of o) !! name) = Some true
  /\ result_of (__getitem__ name (state_of o)) = Return default.
Proof.
  intros Hwf o Hraised. subst o.
  rewrite (declare_state _ _ _ _ _ _ _ _ _ _ _ _ Hwf).
  rewrite (declare_inserts _ _ _ _ _ _ _ _ _ _ _ _ Hwf) in *.
  destruct (is_Undefined default) eqn:Hu; [discriminate Hraised|].
  split; [reflexivity|]. split; [reflexivity|].
  simpl _dict. rewrite lookup_insert_eq. simpl.
  split; [reflexivity|]. split; [reflexivity|].
  erewrite getitem_declared by (simpl; apply lookup_insert_eq).
  reflexivity.
Qed.

Lemma C9_failed_declare_keeps_entry_witness :
  result_of bad_default
  = Raised (Exn ValueError "Value (5) of option 'mode' is not one of [1, 2].")
  /\ (val <$> _dict (state_of bad_default) !! "mode") = Some (VInt 5)
  /\ (has_been_set <$> _dict (state_of bad_default) !! "mode") = Some true
  /\ result_of (__getitem__ "mode" (state_of bad_default)) = Return (VInt 5).
Proof.
  split; [reflexivity|].
  exact (proj2 (proj2
           (C9_failed_declare_keeps_entry (__init__ None false) "mode" (VInt 5)
              (ValuesSeq (Container KList [VInt 1; VInt 2])) (TypesOther VNone)
              EmptyString VNone VNone None false true None
              (Exn ValueError "Value (5) of option 'mode' is not one of [1, 2].")
              eq_refl eq_refl))).
Defined.

(** ** Sequences of accesses *)

Lemma then_ret_run {A B} (m : M A) (f : A -> B) (self : t) :
  state_of (bind m (fun x => ret (f x)) self) = state_of (m self)
  /\ events_of (bind m (fun x => ret (f x)) self) = events_of (m self).
Proof.
  unfold bind, ret, state_of, events_of.
  destruct (m self) as [[s ev] [a|e]]; simpl; rewrite ?List.app_nil_r; split; reflexivity.
Qed.

Lemma warnings_app (l1 l2 : list event) :
  warnings (l1 ++ l2) = (warnings l1 ++ warnings l2)%list.
Proof. apply List.filter_app. Qed.

Lemma warnings_notice (m : meta) : warnings (notice m) = notice m.
Proof. unfold notice. destruct (need_deprecation m); reflexivity. Qed.

(** What one access does to the registry: nothing at all (an undeclared
    name, or a [get]); or the deprecation step alone; or, for a write that
    succeeds, the deprecation step and the assignment. *)
Lemma perform_cases (a : access) (self : t) :
  (state_of (perform a self) = self
   /\ warnings (events_of (perform a self)) = []
   /\ (_dict self !! target a = None \/ exists n d, a = Get n d))
  \/ (exists m, _dict self !! target a = Some m
      /\ warnings (events_of (perform a self)) = notice m
      /\ (state_of (perform a self) = noticed (target a) m self
          \/ (exists v, a = Write (target a) v
              /\ result_of (__setitem__ (target a) v self) = Return tt
              /\ state_of (perform a self)
                 = with_dict (<[target a := written v m]> (_dict self)) self))).
Proof.
  destruct a as [n|n v|n d]; unfold perform.
  - destruct (then_ret_run (__getitem__ n) (@Some value) self) as [-> ->]. simpl target.
    destruct (_dict self !! n) as [m|] eqn:H.
    + right. exists m. rewrite (getitem_declared _ _ _ H).
      split; [reflexivity|]. split; [apply warnings_notice|]. left; reflexivity.
    + left. rewrite (getitem_undeclared _ _ H). repeat split. left; reflexivity.
  - destruct (then_ret_run (__setitem__ n v) (fun _ => @None value) self) as [-> ->].
    simpl target. destruct (_dict self !! n) as [m|] eqn:H.
    + right. exists m. rewrite (setitem_declared _ _ _ _ H).
      split; [reflexivity|].
      pose proof (proj2 (quiet_assert_valid n v self)) as Hq.
      destruct (_read_only self) eqn:Hro.
      * split; [apply warnings_notice|]. left; reflexivity.
      * simpl. destruct (result_of (_assert_valid n v self)) as [[]|e] eqn:Hr;
          unfold events_of at 1; simpl; rewrite warnings_app, warnings_notice, Hq,
            List.app_nil_r; (split; [reflexivity|]).
        -- right. exists v. split; [reflexivity|]. split; [|reflexivity].
           rewrite (setitem_declared _ _ _ _ H), Hro. simpl. rewrite Hr. reflexivity.
        -- left. reflexivity.
    + left. rewrite (setitem_undeclared _ _ _ H). repeat split. left; reflexivity.
  - destruct (then_ret_run (get n d) (@Some value) self) as [-> ->].
    rewrite get_run. left. repeat split. right. exists n, d. reflexivity.
Qed.

(** ** One notice per declaration *)

Lemma keyed_access_step (a : access) (self : t) (name : string) (m : meta) :
  keyed_on name a -> _dict self !! name = Some m ->
  warnings (events_of (perform a self)) = notice m
  /\ exists m', _dict (state_of (perform a self)) !! name = Some m'
                /\ need_deprecation m' = false.
Proof.
  intros [Ht Hg] H. subst name.
  destruct (perform_cases a self) as [(_ & _ & [Hn|(n & d & ->)])|(m0 & H0 & Hw & Hs)].
  - congruence.
  - discriminate Hg.
  - assert (m0 = m) by congruence. subst m0. split; [exact Hw|].
    destruct Hs as [->|(v & _ & _ & ->)]; eexists;
      (split; [apply lookup_insert_eq | reflexivity]).
Qed.

Lemma run_after_notice (name : string) (l : list access) :
  forall (self : t) (m : meta),
    Forall (keyed_on name) l -> _dict self !! name = Some m ->
    need_deprecation m = false ->
    warnings (snd (run l self)) = [].
Proof.
  induction l as [|a l IH]; intros self m Hall H Hn; [reflexivity|].
  inversion Hall as [|? ? Ha Hl]; subst.
  destruct (keyed_access_step a self name m Ha H) as (Hw & m' & H' & Hn').
  simpl. rewrite warnings_app, Hw, (IH _ m' Hl H' Hn').
  unfold notice. rewrite Hn. reflexivity.
Qed.

(** Claim C4.  After an option has been declared with a deprecation message,
    take any non-empty sequence of reads and writes of that option, each
    made on the registry as the previous one left it, whether it failed or
    not.  The first access calls the notifier with the message, the accesses
    after it never call it, and so the notifier is called exactly once over
    the whole sequence. *)
Theorem C4_deprecation_notified_once (self : t) (name : string) (default : value)
    (values : values_arg) (types : types_arg) (desc : string) (upper lower : value)
    (cv : option validator) (an rec : bool) (msg : string)
    (a : access) (l : list access) :
  well_formed values types = true ->
  Forall (keyed_on name) (a :: l) ->
  let s := state_of (declare name default values types desc upper lower cv an rec
                             (Some msg) self) in
  warnings (events_of (perform a s)) = [WarnDeprecation (Some msg)]
  /\ warnings (snd (run l (state_of (perform a s)))) = []
  /\ warnings (snd (run (a :: l) s)) = [WarnDeprecation (Some msg)].
Proof.
  intros Hwf Hall s. inversion Hall as [|? ? Ha Hl]; subst.
  subst s. rewrite (declare_state _ _ _ _ _ _ _ _ _ _ _ _ Hwf).
  match goal with
  | |- context [Self (<[name := ?x]> ?d) ?p ?r ?b] =>
      set (m := x); set (s := Self (<[name := m]> d) p r b)
  end.
  assert (H : _dict s !! name = Some m) by apply lookup_insert_eq.
  destruct (keyed_access_step a s name m Ha H) as (Hw & m' & H' & Hn').
  pose proof (run_after_notice name l _ m' Hl H' Hn') as Hrest.
  split; [exact Hw|]. split; [exact Hrest|].
  simpl. rewrite warnings_app, Hw, Hrest. reflexivity.
Qed.

Lemma C4_deprecation_notified_once_witness :
  warnings (snd (run [Read "mode"; Write "mode" (VStr "both"); Write "mode" (VStr "fwd");
                      Read "mode"] deprecated_mode))
  = [WarnDeprecation (Some "mode is deprecated")].
Proof.
  refine (proj2 (proj2
            (C4_deprecation_notified_once (__init__ (Some "Comp") false) "mode" VUndefined
               (ValuesSeq (Container KSet [VStr "fwd"; VStr "rev"])) (TypesOther VNone)
               EmptyString VNone VNone None false true "mode is deprecated"
               (Read "mode")
               [Write "mode" (VStr "both"); Write "mode" (VStr "fwd"); Read "mode"]
               eq_refl _))).
  repeat constructor.
Defined.

(** ** Required options and read-after-write *)

Lemma content_noticed (name n : string) (m : meta) (self : t) :
  _dict self !! n = Some m -> content name (noticed n m self) = content name self.
Proof.
  intros H. unfold content, noticed. simpl.
  destruct (decide (n = name)) as [->|Hne].
  - rewrite lookup_insert_eq, H. reflexivity.
  - rewrite lookup_insert_ne by exact Hne. reflexivity.
Qed.

Lemma perform_keeps_content (name : string) (a : access) (self : t) :
  match a with
  | Write n v => n = name -> exists e, result_of (__setitem__ n v self) = Raised e
  | _ => True
  end ->
  content name (state_of (perform a self)) = content name self.
Proof.
  intros Hfail.
  destruct (perform_cases a self) as [(-> & _)|(m & H & _ & [->|(v & Ha & Hok & ->)])].
  - reflexivity.
  - apply content_noticed. exact H.
  - rewrite Ha in Hfail. unfold content, with_dict. simpl.
    destruct (decide (target a = name)) as [Heq|Hne].
    + destruct (Hfail Heq) as [e He]. congruence.
    + rewrite lookup_insert_ne by exact Hne. reflexivity.
Qed.

Lemma run_keeps_content (name : string) (l : list access) :
  forall self, never_written name l self ->
    content name (fst (run l self)) = content name self.
Proof.
  induction l as [|a l IH]; intros self Hnw; [reflexivity|].
  destruct Hnw as [Ha Hl]. simpl. rewrite (IH _ Hl).
  apply perform_keeps_content. exact Ha.
Qed.

Lemma getitem_by_content (name : string) (self : t) (v : value) (b : bool) :
  content name self = Some (v, b) ->
  result_of (__getitem__ name self)
  = if b then Return v
    else Raised (Exn RuntimeError
                   (full_msg self ("Option '" +:+ name
                                   +:+ "' is required but has not been set."))).
Proof.
  unfold content. intros Hc. destruct (_dict self !! name) as [m|] eqn:H; [|discriminate Hc].
  injection Hc as <- <-. rewrite (getitem_declared _ _ _ H). reflexivity.
Qed.

Lemma run_keeps_parent (l : list access) :
  forall self, _parent_name (fst (run l self)) = _parent_name self.
Proof.
  induction l as [|a l IH]; intros self; [reflexivity|].
  simpl. rewrite IH.
  destruct (perform_cases a self) as [(-> & _)|(m & _ & _ & [->|(v & _ & _ & ->)])];
    reflexivity.
Qed.

(** Claim C7.  Declare an option without a default; after any sequence of
    accesses in which no write to it succeeds, reading it raises the
    required-but-not-set error.  And once a write of [v] to an option has
    succeeded, reading it returns [v], also after any further accesses among
    which no write to that option succeeds. *)
Theorem C7_required_then_read_after_write (self : t) (name : string) :
  (forall (values : values_arg) (types : types_arg) (desc : string) (upper lower : value)
          (cv : option validator) (an rec : bool) (dep : option string) (l : list access),
      well_formed values types = true ->
      let s := state_of (declare name VUndefined values types desc upper lower cv an rec
                                 dep self) in
      never_written name l s ->
      result_of (__getitem__ name (fst (run l s)))
      = Raised (Exn RuntimeError
                  (full_msg self ("Option '" +:+ name
                                  +:+ "' is required but has not been set."))))
  /\ (forall (v : value) (l : list access),
        result_of (__setitem__ name v self) = Return tt ->
        let s := state_of (__setitem__ name v self) in
        never_written name l s ->
        result_of (__getitem__ name (fst (run l s))) = Return v).
Proof.
  split.
  - intros values types desc upper lower cv an rec dep l Hwf s Hnw.
    assert (Hc : content name s = Some (VUndefined, false)).
    { subst s. rewrite (declare_state _ _ _ _ _ _ _ _ _ _ _ _ Hwf).
      unfold content. simpl. rewrite lookup_insert_eq. reflexivity. }
    rewrite <- (run_keeps_content name l s Hnw) in Hc.
    rewrite (getitem_by_content _ _ _ _ Hc). unfold full_msg.
    rewrite run_keeps_parent. subst s.
    rewrite (declare_state _ _ _ _ _ _ _ _ _ _ _ _ Hwf). reflexivity.
  - intros v l Hok s Hnw.
    assert (Hc : content name s = Some (v, true)).
    { subst s. destruct (_dict self !! name) as [m|] eqn:H.
      - rewrite (setitem_declared _ _ _ _ H) in *.
        destruct (_read_only self); [discriminate Hok|]. simpl in *.
        destruct (result_of (_assert_valid name v self)) as [[]|e]; [|discriminate Hok].
        unfold content, state_of. simpl. rewrite lookup_insert_eq. reflexivity.
      - rewrite (setitem_undeclared _ _ _ H) in Hok. discriminate Hok. }
    rewrite <- (run_keeps_content name l s Hnw) in Hc.
    rewrite (getitem_by_content _ _ _ _ Hc). reflexivity.
Qed.

Lemma C7_required_then_read_after_write_witness :
  result_of (__getitem__ "iters"
               (fst (run [Write "iters" (VInt 150); Get "iters" VNone] required_iters)))
  = Raised (Exn RuntimeError "Option 'iters' is required but has not been set.")
  /\ result_of (__getitem__ "iters"
                  (fst (run [Read "iters"; Write "iters" (VInt (-1)); Read "iters"]
                            (state_of (__setitem__ "iters" (VInt 50) required_iters)))))
     = Return (VInt 50).
Proof.
  split.
  - refine (proj1 (C7_required_then_read_after_write (__init__ None false) "iters")
              (ValuesOther VNone) (TypesOther VNone) EmptyString (VInt 100) (VInt 0)
              None false true None [Write "iters" (VInt 150); Get "iters" VNone]
              eq_refl _).
    simpl. repeat split. intros _. eexists. vm_compute. reflexivity.
  - refine (proj2 (C7_required_then_read_after_write required_iters "iters")
              (VInt 50) [Read "iters"; Write "iters" (VInt (-1)); Read "iters"]
              eq_refl _).
    simpl. repeat split. intros _. eexists. vm_compute. reflexivity.
Defined.

(** ** The non-raising read *)

(** Claim C8.  [get] returns the value stored under ['val'] whenever the name
    is declared, and the caller's default only when the name is absent; it
    raises nothing, calls nothing and leaves the registry (the pending
    deprecation flag included) as it was.  For an option declared without a
    default, and as long as no write to it has succeeded, the stored value
    is the [_UNDEFINED] sentinel, and that is what [get] returns, not the
    caller's default. *)
Theorem C8_get_returns_stored_value (self : t) (name : string) (d : value) :
  state_of (get name d self) = self
  /\ events_of (get name d self) = []
  /\ result_of (get name d self)
     = Return (match _dict self !! name with Some m => val m | None => d end)
  /\ (forall (values : values_arg) (types : types_arg) (desc : string) (upper lower : value)
             (cv : option validator) (an rec : bool) (dep : option string)
             (l : list access),
        well_formed values types = true ->
        let s := state_of (declare name VUndefined values types desc upper lower cv an
                                   rec dep self) in
        never_written name l s ->
        result_of (get name d (fst (run l s))) = Return VUndefined).
Proof.
  split; [rewrite get_run; reflexivity|]. split; [rewrite get_run; reflexivity|].
  split; [rewrite get_run; reflexivity|].
  intros values types desc upper lower cv an rec dep l Hwf s Hnw.
  assert (Hc : content name s = Some (VUndefined, false)).
  { subst s. rewrite (declare_state _ _ _ _ _ _ _ _ _ _ _ _ Hwf).
    unfold content. simpl. rewrite lookup_insert_eq. reflexivity. }
  rewrite <- (run_keeps_content name l s Hnw) in Hc.
  rewrite get_run. unfold content in Hc. unfold result_of. simpl.
  destruct (_dict (fst (run l s)) !! name) as [m|]; [|discriminate Hc].
  injection Hc as -> _. reflexivity.
Qed.

Lemma C8_get_returns_stored_value_witness :
  result_of (get "iters" (VInt 7)
               (fst (run [Write "iters" (VInt 150); Read "iters"] required_iters)))
  = Return VUndefined.
Proof.
  refine (proj2 (proj2 (proj2
            (C8_get_returns_stored_value (__init__ None false) "iters" (VInt 7))))
            (ValuesOther VNone) (TypesOther VNone) EmptyString (VInt 100) (VInt 0)
            None false true None [Write "iters" (VInt 150); Read "iters"] eq_refl _).
  simpl. repeat split. intros _. eexists. vm_compute. reflexivity.
Defined.

(** ** Bulk update *)

Lemma in_dict_getitem_found (l : list (string * value)) (k : string) (v : value) :
  NoDup (map fst l) -> In (k, v) l -> in_dict_getitem l k = ret v.
Proof.
  unfold in_dict_getitem. induction l as [|[k1 v1] l IH]; intros Hnd Hin; [destruct Hin|].
  simpl in Hnd. apply NoDup_cons in Hnd as [Hk1 Hnd]. simpl.
  destruct (String.eqb_spec k1 k) as [->|Hne].
  - destruct Hin as [Heq|Hin]; [injection Heq as <-; reflexivity|].
    exfalso. apply Hk1. apply list_elem_of_In. apply (in_map fst l (k, v) Hin).
  - destruct Hin as [Heq|Hin]; [congruence|]. exact (IH Hnd Hin).
Qed.

Lemma bind_congr {A B} (m1 m2 : M A) (k1 k2 : A -> M B) (self : t) :
  m1 self = m2 self -> (forall a s, k1 a s = k2 a s) ->
  bind m1 k1 self = bind m2 k2 self.
Proof.
  intros Hm Hk. unfold bind. rewrite Hm.
  destruct (m2 self) as [[s1 ev1] [a|e]]; [rewrite Hk|]; reflexivity.
Qed.

Lemma update_write_all (l : list (string * value)) (self : t) :
  NoDup (map fst l) -> update l self = write_all l self.
Proof.
  intros Hnd. unfold update, write_all.
  assert (Hgen : forall l2 s, (forall kv, In kv l2 -> In kv l) ->
            for_each (map fst l2)
              (fun name => v <- in_dict_getitem l name;; __setitem__ name v) s
            = for_each l2 (fun kv => __setitem__ (fst kv) (snd kv)) s).
  { induction l2 as [|[k v] l2 IH]; intros s Hsub; [reflexivity|].
    simpl. apply bind_congr.
    - rewrite (in_dict_getitem_found l k v Hnd (Hsub _ (or_introl eq_refl))).
      apply bind_ret.
    - intros _ s'. apply IH. intros kv Hkv. apply Hsub. right. exact Hkv. }
  apply Hgen. intros kv Hkv; exact Hkv.
Qed.

Lemma write_all_app (l1 l2 : list (string * value)) (self : t) :
  write_all (l1 ++ l2) self =
    match write_all l1 self with
    | (s1, ev1, Return _) =>
        (state_of (write_all l2 s1), (ev1 ++ events_of (write_all l2 s1))%list,
         result_of (write_all l2 s1))
    | (s1, ev1, Raised e) => (s1, ev1, Raised e)
    end.
Proof.
  unfold write_all. revert self. induction l1 as [|[k v] l1 IH]; intros self.
  - simpl. unfold ret, state_of, events_of, result_of.
    destruct (for_each l2 _ self) as [[s ev] r]. reflexivity.
  - simpl. unfold bind. destruct (__setitem__ k v self) as [[s1 ev1] [[]|e]]; [|reflexivity].
    rewrite IH. destruct (for_each l1 _ s1) as [[s2 ev2] [[]|e]]; [|reflexivity].
    rewrite List.app_assoc. reflexivity.
Qed.

Lemma setitem_other (name n : string) (v : value) (self : t) :
  n <> name -> _dict (state_of (__setitem__ name v self)) !! n = _dict self !! n.
Proof.
  intros Hne. destruct (_dict self !! name) as [m|] eqn:H.
  - rewrite (setitem_declared _ _ _ _ H).
    destruct (_read_only self); [|simpl; destruct (result_of _) as [[]|e]];
      unfold state_of, noticed; simpl; apply lookup_insert_ne; congruence.
  - rewrite (setitem_undeclared _ _ _ H). reflexivity.
Qed.

Lemma setitem_failed (name : string) (v : value) (self : t) (e : exn) :
  result_of (__setitem__ name v self) = Raised e ->
  _dict (state_of (__setitem__ name v self)) !! name
  = set_need_deprecation false <$> _dict self !! name.
Proof.
  intros Hr. destruct (_dict self !! name) as [m|] eqn:H.
  - rewrite (setitem_declared _ _ _ _ H) in *.
    destruct (_read_only self).
    + unfold state_of, noticed; simpl; apply lookup_insert_eq.
    + simpl in *.
      destruct (result_of (_assert_valid name v self)) as [[]|e']; [discriminate Hr|].
      unfold state_of, noticed; simpl; apply lookup_insert_eq.
  - rewrite (setitem_undeclared _ _ _ H). simpl. exact H.
Qed.

Lemma setitem_succeeded (name : string) (v : value) (self : t) :
  result_of (__setitem__ name v self) = Return tt ->
  content name (state_of (__setitem__ name v self)) = Some (v, true).
Proof.
  intros Hr. destruct (_dict self !! name) as [m|] eqn:H.
  - rewrite (setitem_declared _ _ _ _ H) in *.
    destruct (_read_only self); [discriminate Hr|]. simpl in *.
    destruct (result_of (_assert_valid name v self)) as [[]|e]; [|discriminate Hr].
    unfold content, state_of. simpl. rewrite lookup_insert_eq. reflexivity.
  - rewrite (setitem_undeclared _ _ _ H) in Hr. discriminate Hr.
Qed.

Lemma write_all_other (l : list (string * value)) (n : string) :
  forall self, ~ In n (map fst l) ->
    _dict (state_of (write_all l self)) !! n = _dict self !! n.
Proof.
  unfold write_all. induction l as [|[k v] l IH]; intros self Hn; [reflexivity|].
  simpl in Hn. simpl.
  assert (Hk : n <> k) by (intros ->; apply Hn; left; reflexivity).
  pose proof (setitem_other k n v self Hk) as H1.
  unfold bind, state_of in *. destruct (__setitem__ k v self) as [[s1 ev1] [[]|e]]; simpl in *.
  - specialize (IH s1 (fun H => Hn (or_intror H))).
    destruct (for_each l _ s1) as [[s2 ev2] r]. simpl in *. congruence.
  - exact H1.
Qed.

Lemma write_all_applied (l : list (string * value)) (k : string) (v : value) :
  forall self, NoDup (map fst l) -> result_of (write_all l self) = Return tt ->
    In (k, v) l -> content k (state_of (write_all l self)) = Some (v, true).
Proof.
  unfold write_all. induction l as [|[k1 v1] l IH]; intros self Hnd Hr Hin; [destruct Hin|].
  simpl in Hnd. apply NoDup_cons in Hnd as [Hk1 Hnd]. simpl in *.
  pose proof (setitem_succeeded k1 v1 self) as Hs.
  pose proof (write_all_other l k1) as Ho. unfold write_all in Ho.
  unfold bind, state_of, result_of in *.
  destruct (__setitem__ k1 v1 self) as [[s1 ev1] [[]|e]]; simpl in *; [|discriminate Hr].
  specialize (IH s1 Hnd). specialize (Ho s1).
  destruct (for_each l _ s1) as [[s2 ev2] r]. simpl in *. subst r.
  destruct Hin as [Heq|Hin].
  - injection Heq as <- <-. unfold content in *. rewrite Ho; [apply Hs; reflexivity|].
    intros Hin. apply Hk1. apply list_elem_of_In. exact Hin.
  - apply IH; [reflexivity | exact Hin].
Qed.

(** Claim C6, as amended.  Let the argument of [update] list the entries
    [pre], then [(k, v)], then [post], let the writes of [pre] all succeed
    and let the write of [(k, v)], made on the registry they leave, raise
    [e].  Then [update] raises [e] after the events of these writes, in that
    order, and leaves the registry as the failing write left it: every entry
    of [pre] holds its new value, the options of [post] are untouched, and
    the option [k] holds the value and the [has_been_set] flag it had before
    the update; its entry is the one it was but for the deprecation flag,
    which the failing write has cleared. *)
Theorem C6_update_stops_at_first_failure (self : t) (pre post : list (string * value))
    (k : string) (v : value) (e : exn) :
  NoDup (map fst (pre ++ (k, v) :: post)) ->
  result_of (update pre self) = Return tt ->
  result_of (__setitem__ k v (state_of (update pre self))) = Raised e ->
  let failing := __setitem__ k v (state_of (update pre self)) in
  let o := update (pre ++ (k, v) :: post) self in
  result_of o = Raised e
  /\ state_of o = state_of failing
  /\ events_of o = (events_of (update pre self) ++ events_of failing)%list
  /\ (forall k' v', In (k', v') pre -> content k' (state_of o) = Some (v', true))
  /\ content k (state_of o) = content k self
  /\ _dict (state_of o) !! k = set_need_deprecation false <$> _dict self !! k
  /\ (forall k', In k' (map fst post) -> _dict (state_of o) !! k' = _dict self !! k').
Proof.
  intros Hnd Hpre Hfail failing o.
  assert (Hnd' : NoDup (map fst pre) /\ ~ In k (map fst pre)
                 /\ forall k', In k' (map fst post) -> k' <> k /\ ~ In k' (map fst pre)).
  { rewrite map_app in Hnd. simpl in Hnd.
    apply NoDup_app in Hnd as (Hp & Hdis & Hrest).
    apply NoDup_cons in Hrest as [Hk Hpost].
    split; [exact Hp|]. split.
    - intros Hin. apply (Hdis k); [apply list_elem_of_In; exact Hin | left].
    - intros k' Hin. split.
      + intros ->. apply Hk. apply list_elem_of_In. exact Hin.
      + intros Hin'. apply (Hdis k'); [apply list_elem_of_In; exact Hin'|].
        right. apply list_elem_of_In. exact Hin. }
  destruct Hnd' as (Hndpre & Hkpre & Hpost).
  subst o failing. rewrite (update_write_all _ _ Hnd) in *.
  rewrite (update_write_all _ _ Hndpre) in *.
  pose proof (fun k' v' => write_all_applied pre k' v' self Hndpre Hpre) as Happlied.
  pose proof (fun n => write_all_other pre n self) as Hother.
  rewrite write_all_app.
  unfold state_of, events_of, result_of in *.
  destruct (write_all pre self) as [[s1 ev1] r1]. simpl in *. subst r1.
  assert (Hstep : write_all ((k, v) :: post) s1
                  = ((__setitem__ k v s1).1.1, (__setitem__ k v s1).1.2, Raised e)).
  { unfold write_all. simpl. unfold bind.
    destruct (__setitem__ k v s1) as [[s2 ev2] r2]. simpl in *. subst r2. reflexivity. }
  rewrite Hstep. simpl.
  pose proof (setitem_failed k v s1 e Hfail) as Hk.
  pose proof (fun n => setitem_other k n v s1) as Hrest.
  unfold state_of in *.
  split; [reflexivity|]. split; [reflexivity|]. split; [reflexivity|].
  split; [|split; [|split]].
  - intros k' v' Hin. unfold content. rewrite Hrest.
    + apply Happlied. exact Hin.
    + intros ->. apply Hkpre. apply (in_map fst pre (k, v') Hin).
  - unfold content. rewrite Hk, (Hother k Hkpre).
    destruct (_dict self !! k); reflexivity.
  - rewrite Hk, (Hother k Hkpre). reflexivity.
  - intros k' Hin. destruct (Hpost k' Hin) as [Hne Hnin].
    rewrite (Hrest k' Hne). apply Hother. exact Hnin.
Qed.

Lemma C6_update_stops_at_first_failure_witness :
  let o := update [("a", VInt 1); ("b", VInt 200); ("c", VInt 3)] two_options in
  result_of o
  = Raised (Exn ValueError "Value (200) of option 'b' exceeds maximum allowed value of 100.")
  /\ content "a" (state_of o) = Some (VInt 1, true)
  /\ content "b" (state_of o) = Some (VUndefined, false)
  /\ _dict (state_of o) !! "c" = _dict two_options !! "c".
Proof.
  destruct (C6_update_stops_at_first_failure two_options [("a", VInt 1)] [("c", VInt 3)]
              "b" (VInt 200)
              (Exn ValueError
                 "Value (200) of option 'b' exceeds maximum allowed value of 100.")
              ltac:(apply (bool_decide_unpack _); vm_compute; exact I) eq_refl eq_refl)
    as (Hr & _ & _ & Hpre & Hk & _ & Hpost).
  split; [exact Hr|].
  split; [exact (Hpre "a" (VInt 1) (or_introl eq_refl))|].
  split; [exact Hk|].
  exact (Hpost "c" (or_introl eq_refl)).
Defined.
(** Claim C6, as stated, fails in its last words: the write of [500] to the
    deprecated option [a] fails validation, and yet it does not leave the
    entry unchanged, since the pending deprecation flag has been cleared
    (and the notifier called) before the value was checked. *)
Lemma C6_counterexample :
  result_of (update [("c", VInt 3); ("a", VInt 500)] two_options)
  = Raised (Exn ValueError "Value (500) of option 'a' exceeds maximum allowed value of 100.")
  /\ (need_deprecation <$> _dict two_options !! "a") = Some true
  /\ (need_deprecation
        <$> _dict (state_of (update [("c", VInt 3); ("a", VInt 500)] two_options)) !! "a")
     = Some false
  /\ _dict (state_of (update [("c", VInt 3); ("a", VInt 500)] two_options)) !! "a"
     <> _dict two_options !! "a".
Proof.
  split; [vm_compute; reflexivity|]. split; [vm_compute; reflexivity|].
  assert (H : (need_deprecation
                 <$> _dict (state_of (update [("c", VInt 3); ("a", VInt 500)] two_options))
                     !! "a") = Some false) by (vm_compute; reflexivity).
  split; [exact H|]. intros Heq. rewrite Heq in H. vm_compute in H. discriminate H.
Qed.


(** * Further properties of the class *)

(** ** Declarations *)

Lemma declare_ill_formed (self : t) (name : string) (default : value)
    (values : values_arg) (types : types_arg) (desc : string) (upper lower : value)
    (cv : option validator) (an rec : bool) (dep : option string) :
  well_formed values types = false ->
  declare name default values types desc upper lower cv an rec dep self
  = (self, [], Raised (declare_error self name values types)).
Proof.
  intros Hwf. unfold declare, declare_error.
  destruct (values_not_None values && negb (values_is_seq values)) eqn:H1.
  { unfold when_ at 1. eapply bind_raised. apply raise_run. }
  unfold when_ at 1. rewrite bind_ret.
  destruct (types_not_None types && negb (types_is_type_or_seq types)) eqn:H2.
  { unfold when_ at 1. eapply bind_raised. apply raise_run. }
  unfold when_ at 1. rewrite bind_ret.
  destruct (types_not_None types && values_not_None values) eqn:H3.
  { unfold when_ at 1. eapply bind_raised. apply raise_run. }
  unfold well_formed in Hwf. rewrite H1, H2, H3 in Hwf. discriminate Hwf.
Qed.

(** X1.  A declaration whose [values] argument is not a set, list or tuple,
    whose [types] argument is not a class or a set, list or tuple, or that
    gives both [values] and [types], raises before anything is touched: the
    registry is exactly what it was (nothing is declared, a previous
    declaration of the name stays, the recordable flag is not flipped), no
    validator is called, and the error is the [TypeError] of the first wrong
    argument, or else the [RuntimeError] for giving both.  In particular a
    declaration that gives both never succeeds. *)
Theorem X1_declare_rejects_bad_arguments (self : t) (name : string) (default : value)
    (values : values_arg) (types : types_arg) (desc : string) (upper lower : value)
    (cv : option validator) (an rec : bool) (dep : option string) :
  well_formed values types = false ->
  let o := declare name default values types desc upper lower cv an rec dep self in
  state_of o = self
  /\ events_of o = []
  /\ result_of o = Raised (declare_error self name values types)
  /\ exn_type (declare_error self name values types)
     = (if (values_not_None values && negb (values_is_seq values))
           || (types_not_None types && negb (types_is_type_or_seq types))
        then TypeError else RuntimeError).
Proof.
  intros Hwf o. subst o. rewrite (declare_ill_formed _ _ _ _ _ _ _ _ _ _ _ _ Hwf).
  repeat (split; [reflexivity|]).
  unfold declare_error.
  destruct (values_not_None values && negb (values_is_seq values)); [reflexivity|].
  destruct (types_not_None types && negb (types_is_type_or_seq types)); reflexivity.
Qed.

Lemma X1_declare_rejects_bad_arguments_witness :
  let o := declare "mode" (VInt 1) (ValuesSeq (Container KList [VInt 1; VInt 2]))
                   (TypesClass Tint) EmptyString VNone VNone None false false None
                   iters_registry in
  state_of o = iters_registry
  /\ result_of o
     = Raised (Exn RuntimeError "'types' and 'values' were both specified for option 'mode'.").
Proof.
  destruct (X1_declare_rejects_bad_arguments iters_registry "mode" (VInt 1)
              (ValuesSeq (Container KList [VInt 1; VInt 2])) (TypesClass Tint)
              EmptyString VNone VNone None false false None eq_refl)
    as (Hs & _ & Hr & _).
  split; [exact Hs | exact Hr].
Defined.

Lemma undeclare_run (name : string) (self : t) :
  undeclare name self = (with_dict (delete name (_dict self)) self, [], Return tt).
Proof.
  unfold undeclare. rewrite bind_get_self. unfold when_, dict_delitem, modify, ret.
  destruct (_dict self !! name) as [m|] eqn:H.
  - rewrite bool_decide_eq_true_2 by (eexists; reflexivity). reflexivity.
  - rewrite bool_decide_eq_false_2 by (intros [m Hm]; discriminate Hm).
    rewrite (delete_id _ _ H), with_dict_id. reflexivity.
Qed.

(** X2.  Declaring a name again is the same as removing the option and
    declaring it: with well formed arguments, [declare] run on the registry
    and run after [undeclare] of the name give the same registry, the same
    events and the same result.  Nothing of the previous entry survives a
    redeclaration (its value, its [has_been_set] flag, its consumed notice),
    and the other options are not looked at. *)
Theorem X2_redeclare_replaces_entry (self : t) (name : string) (default : value)
    (values : values_arg) (types : types_arg) (desc : string) (upper lower : value)
    (cv : option validator) (an rec : bool) (dep : option string) :
  well_formed values types = true ->
  declare name default values types desc upper lower cv an rec dep
          (state_of (undeclare name self))
  = declare name default values types desc upper lower cv an rec dep self.
Proof.
  intros Hwf. rewrite undeclare_run.
  rewrite !(declare_inserts _ _ _ _ _ _ _ _ _ _ _ _ Hwf).
  unfold state_of, with_dict. simpl. rewrite insert_delete_eq. reflexivity.
Qed.

Lemma X2_redeclare_replaces_entry_witness :
  let s := state_of (__setitem__ "iters" (VInt 50) iters_registry) in
  declare "iters" VUndefined (ValuesOther VNone) (TypesClass Tint) EmptyString
          VNone VNone None false true None (state_of (undeclare "iters" s))
  = declare "iters" VUndefined (ValuesOther VNone) (TypesClass Tint) EmptyString
            VNone VNone None false true None s.
Proof.
  exact (X2_redeclare_replaces_entry
           (state_of (__setitem__ "iters" (VInt 50) iters_registry)) "iters" VUndefined
           (ValuesOther VNone) (TypesClass Tint) EmptyString VNone VNone None false true
           None eq_refl).
Defined.

(** ** Removal and undeclared names *)

(** X3.  [undeclare] never raises and calls nothing.  It removes the entry of
    the name and nothing else: the other options and the attributes of the
    registry are as before, and on a name that is not declared it changes
    nothing.  After it the name is not contained in the registry, reading it
    raises the not-found [KeyError], writing it raises the not-declared
    [KeyError], and [get] returns the caller's default. *)
Theorem X3_undeclare_removes_entry (self : t) (name : string) (v d : value) :
  let s := state_of (undeclare name self) in
  events_of (undeclare name self) = []
  /\ result_of (undeclare name self) = Return tt
  /\ s = with_dict (delete name (_dict self)) self
  /\ (forall k, k <> name -> _dict s !! k = _dict self !! k)
  /\ (_dict self !! name = None -> s = self)
  /\ result_of (__contains__ name s) = Return false
  /\ result_of (__getitem__ name s)
     = Raised (Exn KeyError (full_msg self ("Option '" +:+ name +:+ "' cannot be found")))
  /\ result_of (__setitem__ name v s)
     = Raised (Exn KeyError
                 (full_msg self ("Option '" +:+ name
                                 +:+ "' cannot be set because it has not been declared.")))
  /\ result_of (get name d s) = Return d.
Proof.
  intros s. subst s. rewrite undeclare_run.
  change (state_of (with_dict (delete name (_dict self)) self, [], Return tt))
    with (with_dict (delete name (_dict self)) self).
  set (s := with_dict (delete name (_dict self)) self).
  assert (Hgone : _dict s !! name = None) by apply lookup_delete_eq.
  split; [reflexivity|]. split; [reflexivity|]. split; [reflexivity|].
  split; [intros k Hk; apply lookup_delete_ne; congruence|].
  split; [intros H; subst s; rewrite (delete_id _ _ H); apply with_dict_id|].
  split.
  { unfold __contains__. rewrite bind_get_self, Hgone.
    rewrite bool_decide_eq_false_2 by (intros [m Hm]; discriminate Hm). reflexivity. }
  split; [rewrite (getitem_undeclared _ _ Hgone); reflexivity|].
  split; [rewrite (setitem_undeclared _ _ _ Hgone); reflexivity|].
  rewrite get_run, Hgone. reflexivity.
Qed.

Lemma X3_undeclare_removes_entry_witness :
  state_of (undeclare "mode" iters_registry) = iters_registry
  /\ _dict (state_of (undeclare "iters" iters_registry)) !! "iters" = None.
Proof.
  destruct (X3_undeclare_removes_entry iters_registry "mode" VNone VNone)
    as (_ & _ & _ & _ & Hnoop & _).
  destruct (X3_undeclare_removes_entry iters_registry "iters" VNone VNone)
    as (_ & _ & Hs & _).
  split; [exact (Hnoop eq_refl)|].
  rewrite Hs. reflexivity.
Defined.

(** X4.  Nothing is created by an access.  On a name that is not declared,
    [__getitem__] and [__setitem__] raise their [KeyError] without calling
    anything and leave the registry exactly as it was, and so does an
    [update] whose first entry has that name: none of its entries is
    applied. *)
Theorem X4_undeclared_name_is_an_error (self : t) (name : string) (v : value)
    (rest : list (string * value)) :
  _dict self !! name = None ->
  __getitem__ name self
  = (self, [],
     Raised (Exn KeyError (full_msg self ("Option '" +:+ name +:+ "' cannot be found"))))
  /\ __setitem__ name v self
     = (self, [],
        Raised (Exn KeyError
                  (full_msg self ("Option '" +:+ name
                                  +:+ "' cannot be set because it has not been declared."))))
  /\ update ((name, v) :: rest) self = __setitem__ name v self.
Proof.
  intros H. split; [apply getitem_undeclared; exact H|].
  split; [apply setitem_undeclared; exact H|].
  unfold update. simpl. rewrite (setitem_undeclared _ _ _ H).
  eapply bind_raised. unfold in_dict_getitem. simpl.
  rewrite String.eqb_refl. rewrite bind_ret. apply setitem_undeclared. exact H.
Qed.

Lemma X4_undeclared_name_is_an_error_witness :
  update [("mode", VStr "fwd"); ("iters", VInt 5)] iters_registry
  = (iters_registry, [],
     Raised (Exn KeyError "Option 'mode' cannot be set because it has not been declared.")).
Proof.
  destruct (X4_undeclared_name_is_an_error iters_registry "mode" (VStr "fwd")
              [("iters", VInt 5)] eq_refl) as (_ & Hset & Hupd).
  rewrite Hupd. exact Hset.
Defined.

(** ** What accesses cannot do *)

Lemma evolves_refl (s : t) : evolves s s.
Proof.
  repeat (split; [reflexivity|]). intros k. destruct (_dict s !! k); auto.
Qed.

Lemma evolves_trans (s1 s2 s3 : t) : evolves s1 s2 -> evolves s2 s3 -> evolves s1 s3.
Proof.
  intros (Hp & Hr & Ha & Hk) (Hp' & Hr' & Ha' & Hk').
  split; [congruence|]. split; [congruence|]. split; [congruence|].
  intros k. specialize (Hk k). specialize (Hk' k).
  destruct (_dict s1 !! k) as [m1|], (_dict s2 !! k) as [m2|], (_dict s3 !! k) as [m3|];
    try contradiction; auto.
  destruct Hk as (Hd & Hs & Hn), Hk' as (Hd' & Hs' & Hn').
  split; [congruence|]. split; auto.
Qed.

Lemma evolves_entry (s : t) (name : string) (m m' : meta) :
  _dict s !! name = Some m ->
  declared_part m' = declared_part m ->
  (has_been_set m = true -> has_been_set m' = true) ->
  (need_deprecation m = false -> need_deprecation m' = false) ->
  evolves s (with_dict (<[name := m']> (_dict s)) s).
Proof.
  intros H Hd Hs Hn. repeat (split; [reflexivity|]). intros k. simpl.
  destruct (decide (name = k)) as [<-|Hne].
  - rewrite lookup_insert_eq, H. auto.
  - rewrite lookup_insert_ne by exact Hne. destruct (_dict s !! k); auto.
Qed.

Lemma perform_evolves (a : access) (s : t) : evolves s (state_of (perform a s)).
Proof.
  destruct (perform_cases a s) as [(-> & _)|(m & H & _ & [->|(v & _ & _ & ->)])].
  - apply evolves_refl.
  - apply (evolves_entry s _ m _ H); [reflexivity | auto | reflexivity].
  - apply (evolves_entry s _ m _ H); [reflexivity | reflexivity | reflexivity].
Qed.

Lemma setitem_evolves (name : string) (v : value) (s : t) :
  evolves s (state_of (__setitem__ name v s)).
Proof.
  pose proof (perform_evolves (Write name v) s) as H.
  unfold perform in H. rewrite (proj1 (then_ret_run _ _ _)) in H. exact H.
Qed.

Lemma for_each_evolves {A} (body : A -> M unit) (l : list A) :
  (forall x s, evolves s (state_of (body x s))) ->
  forall s, evolves s (state_of (for_each l body s)).
Proof.
  intros Hbody. induction l as [|x l IH]; intros s; [apply evolves_refl|].
  simpl. specialize (Hbody x s). unfold bind, state_of in *.
  destruct (body x s) as [[s1 ev1] [[]|e]]; simpl in *; [|exact Hbody].
  specialize (IH s1). destruct (for_each l body s1) as [[s2 ev2] r]. simpl in *.
  exact (evolves_trans _ _ _ Hbody IH).
Qed.

Lemma update_evolves (in_dict : list (string * value)) (s : t) :
  evolves s (state_of (update in_dict s)).
Proof.
  unfold update. apply for_each_evolves. intros name s'.
  unfold in_dict_getitem. destruct (find _ in_dict) as [kv|].
  - rewrite bind_ret. apply setitem_evolves.
  - unfold bind, raise, state_of. simpl. apply evolves_refl.
Qed.

(** X5.  Reads, writes, [get] and [update], in any number and whether they
    fail or not, leave the registry with the same attributes and the same
    set of options, each declared as it was (same [values], [types], bounds,
    validator, [allow_none], description, [recordable], deprecation
    message).  An option that has a value keeps having one, and a notice
    that has been consumed is not issued again by a later access. *)
Theorem X5_accesses_keep_declarations (self : t) (l : list access)
    (in_dict : list (string * value)) :
  evolves self (fst (run l self))
  /\ evolves self (state_of (update in_dict self)).
Proof.
  split; [|apply update_evolves].
  revert self. induction l as [|a l IH]; intros self; [apply evolves_refl|].
  simpl. exact (evolves_trans _ _ _ (perform_evolves a self) (IH _)).
Qed.

(** ** The custom validator comes last *)

Section Eventless.
Context {A B : Type}.

Lemma eventless_ret (a : A) : eventless (ret a).
Proof. intros self; reflexivity. Qed.

Lemma eventless_lift (r : result A) : eventless (lift r).
Proof. intros self; reflexivity. Qed.

Lemma eventless__raise (msg : string) (exc : exc_type) : eventless (@_raise A msg exc).
Proof. intros self; rewrite raise_run; reflexivity. Qed.

Lemma eventless_bind (m : M A) (k : A -> M B) :
  eventless m -> (forall a, eventless (k a)) -> eventless (bind m k).
Proof.
  intros Hm Hk self. specialize (Hm self). unfold bind, events_of in *.
  destruct (m self) as [[s1 ev1] [a|e]]; simpl in *; subst ev1; [|reflexivity].
  specialize (Hk a s1). unfold events_of in Hk.
  destruct (k a s1) as [[s2 ev2] r]. simpl in *. exact Hk.
Qed.
End Eventless.

Lemma eventless_when (b : bool) (m : M unit) : eventless m -> eventless (when_ b m).
Proof. intros Hm. destruct b; [exact Hm | apply eventless_ret]. Qed.

Ltac eventless_step :=
  first
    [ apply eventless_ret
    | apply eventless_lift
    | apply eventless__raise
    | apply eventless_when
    | apply eventless_bind; [ | intros ? ]
    | match goal with
      | |- eventless (match ?x with _ => _ end) => destruct x
      | |- eventless (if ?b then _ else _) => destruct b
      end ].

Lemma builtin_checks_run {A} (P : M A) (s1 s2 : t) :
  quiet P -> parent_only P -> eventless P -> _parent_name s1 = _parent_name s2 ->
  P s1 = (s1, [], result_of (P s2)).
Proof.
  intros Hq Hp He Hn. destruct (Hp s1 s2 Hn) as [_ Hr].
  pose proof (proj1 (Hq s1)) as Hs. pose proof (He s1) as Hev.
  unfold state_of, events_of, result_of in *.
  destruct (P s1) as [[s ev] r]. simpl in *. congruence.
Qed.

(** X6.  The custom validator of an option is the last check and only a
    further one.  Validation with the validator does what validation of the
    same option without it does, and then, if that passed, calls the
    validator once with the name and the value and ends as the validator
    does; a value that fails a built-in check is rejected with the error of
    that check and the validator is never called on it. *)
Theorem X6_validator_runs_after_builtin_checks (self : t) (name : string) (v : value)
    (m : meta) (f : validator) :
  _dict self !! name = Some m ->
  check_valid m = Some f ->
  let bare := with_dict (<[name := without_validator m]> (_dict self)) self in
  _assert_valid name v self
  = match result_of (_assert_valid name v bare) with
    | Return _ => (self, [CheckValidCall name v], f name v)
    | Raised e => (self, [], Raised e)
    end.
Proof.
  intros H Hf bare.
  assert (Hb : _dict bare !! name = Some (without_validator m)) by apply lookup_insert_eq.
  unfold _assert_valid. rewrite !bind_get_self, H, Hb, !bind_ret, Hf.
  change (allow_none (without_validator m)) with (allow_none m).
  change (values (without_validator m)) with (values m).
  change (types (without_validator m)) with (types m).
  change (upper (without_validator m)) with (upper m).
  change (lower (without_validator m)) with (lower m).
  change (check_valid (without_validator m)) with (@None validator).
  cbv iota.
  match goal with
  | |- bind ?P _ self = _ =>
      assert (Hq : quiet P) by (repeat quiet_step);
      assert (Hp : parent_only P)
        by (unfold ret, lift; repeat parent_only_step);
      assert (He : eventless P) by (repeat eventless_step);
      pose proof (builtin_checks_run P self bare Hq Hp He eq_refl) as Hself;
      pose proof (builtin_checks_run P bare bare Hq Hp He eq_refl) as Hbare
  end.
  destruct (result_of (_ bare)) as [[]|e] eqn:Hr.
  - erewrite (bind_returned _ (fun _ => ret tt)); [|exact Hbare|reflexivity].
    erewrite bind_returned; [|exact Hself|reflexivity].
    unfold result_of. simpl. unfold call_check_valid, bind, emit, lift. reflexivity.
  - erewrite (bind_raised _ (fun _ => ret tt)); [|exact Hbare].
    erewrite bind_raised; [|exact Hself]. reflexivity.
Qed.

Lemma X6_validator_runs_after_builtin_checks_witness :
  let s := state_of (declare "n" VUndefined (ValuesOther VNone) (TypesClass Tint)
                             EmptyString VNone VNone (Some template_check_valid)
                             false true None (__init__ None false)) in
  _assert_valid "n" (VStr "a") s
  = (s, [],
     Raised (Exn TypeError
               "Value ('a') of option 'n' has type 'str', but type 'int' was expected."))
  /\ _assert_valid "n" (VInt 3) s
     = (s, [CheckValidCall "n" (VInt 3)],
        Raised (Exn ValueError "Option 'n' with value 3 is not valid.")).
Proof.
  intros s.
  pose (m := Meta VUndefined None (Some (OneType Tint)) EmptyString VNone VNone
                  (Some template_check_valid) false false true None false).
  split.
  - exact (X6_validator_runs_after_builtin_checks s "n" (VStr "a") m
             template_check_valid eq_refl eq_refl).
  - exact (X6_validator_runs_after_builtin_checks s "n" (VInt 3) m
             template_check_valid eq_refl eq_refl).
Defined.

(** ** Enumerated values, classes and bounds *)

Lemma setitem_writable (name : string) (v : value) (self : t) (m : meta) :
  _read_only self = false ->
  _dict self !! name = Some m ->
  __setitem__ name v self =
    match result_of (_assert_valid name v self) with
    | Return _ =>
        (with_dict (<[name := written v m]> (_dict self)) self,
         (notice m ++ events_of (_assert_valid name v self))%list, Return tt)
    | Raised e =>
        (noticed name m self, (notice m ++ events_of (_assert_valid name v self))%list,
         Raised e)
    end.
Proof. intros Hro H. rewrite (setitem_declared _ _ _ _ H), Hro. reflexivity. Qed.


Lemma content_after_notice (name : string) (m : meta) (self : t)
    (ev : list event) (r : result unit) :
  content name (state_of (noticed name m self, ev, r)) = Some (val m, has_been_set m).
Proof. unfold content, state_of, noticed. simpl. rewrite lookup_insert_eq. reflexivity. Qed.



(** X8.  [declare] accepts a list or a set of classes for [types], but
    [isinstance] does not: an option declared that way rejects every write
    (other than a [None] allowed by [allow_none]) with a [TypeError], also
    when the value is an instance of one of the classes, and the option
    keeps the value it had. *)
Theorem X8_types_in_a_list_reject_all (self : t) (name : string) (default : value)
    (desc : string) (upper lower : value) (cv : option validator) (an rec : bool)
    (dep : option string) (k : seq_kind) (l : list pytype) (v : value) :
  k <> KTuple ->
  _read_only self = false ->
  is_None v && (an || is_None default) = false ->
  let s := state_of (declare name default (ValuesOther VNone) (TypesSeq k l) desc
                             upper lower cv an rec dep self) in
  let o := __setitem__ name v s in
  (exists msg, result_of o = Raised (Exn TypeError msg))
  /\ (forall n v', ~ In (CheckValidCall n v') (events_of o))
  /\ content name (state_of o) = Some (default, negb (is_Undefined default)).
Proof.
  intros Hk Hro Hnone s o. subst o s.
  rewrite (declare_state self name default (ValuesOther VNone) (TypesSeq k l)
             desc upper lower cv an rec dep eq_refl).
  simpl types_is_bool. cbv iota. simpl stored_values. simpl stored_types.
  match goal with
  | |- context [Self (<[name := ?x]> ?d) ?p ?r ?a] =>
      set (m := x); set (s := Self (<[name := m]> d) p r a)
  end.
  assert (H : _dict s !! name = Some m) by apply lookup_insert_eq.
  assert (Hallow : allow_none m = an || is_None default).
  { subst m. simpl. destruct default, an; reflexivity. }
  assert (Hv : _assert_valid name v s
               = (s, [], Raised (Exn TypeError
                    "isinstance() arg 2 must be a type, a tuple of types, or a union"))).
  { open_assert_valid H. rewrite Hallow, Hnone.
    change (values m) with (@None container).
    change (types m) with (Some (TypeSeq k l)).
    destruct k; [| |congruence]; reflexivity. }
  rewrite (setitem_writable name v s m Hro H), Hv.
  unfold result_of, events_of. simpl. rewrite List.app_nil_r.
  split; [eexists; reflexivity|]. split.
  - intros n v' Hin. unfold notice in Hin.
    destruct (need_deprecation m); simpl in Hin; [destruct Hin as [Hin|[]]; discriminate Hin|].
    exact Hin.
  - apply content_after_notice.
Qed.

Lemma X8_types_in_a_list_reject_all_witness :
  let s := state_of (declare "n" VUndefined (ValuesOther VNone) (TypesSeq KList [Tint; Tstr])
                             EmptyString VNone VNone None false true None
                             (__init__ None false)) in
  exists msg, result_of (__setitem__ "n" (VInt 3) s) = Raised (Exn TypeError msg).
Proof.
  refine (proj1 (X8_types_in_a_list_reject_all (__init__ None false) "n" VUndefined
                   EmptyString VNone VNone None false true None KList [Tint; Tstr] (VInt 3)
                   _ eq_refl eq_refl)).
  discriminate.
Defined.

(** X9.  The bounds are compared with [>] and [<] as they are.  For an
    option with a numeric [upper], a value that is not a number (a string,
    [None] where [None] is not allowed) and that has passed the [values] or
    [types] check is rejected with the [TypeError] of the comparison, raised
    as it is, without the name of the owner in front; no minimum is looked
    at and no validator is called. *)
Theorem X9_unorderable_value_is_a_type_error (self : t) (name : string) (m : meta)
    (v : value) (hi : Z) :
  _dict self !! name = Some m ->
  membership_ok m v = true ->
  is_None v && allow_none m = false ->
  as_number v = None ->
  as_number (upper m) = Some hi ->
  _assert_valid name v self = (self, [], Raised (unorderable ">" v (upper m)))
  /\ exn_type (unorderable ">" v (upper m)) = TypeError.
Proof.
  intros H Hmem Hnone Hv Hhi. split; [|reflexivity].
  rewrite assert_valid_triple.
  assert (Hgt : py_gt v (upper m) = Raised (unorderable ">" v (upper m))).
  { unfold py_gt. rewrite Hv. destruct v, (upper m); try reflexivity; discriminate Hhi. }
  assert (He : events_of (_assert_valid name v self) = []
               /\ result_of (_assert_valid name v self)
                  = Raised (unorderable ">" v (upper m))).
  { open_assert_valid H. rewrite Hnone, (number_not_None _ _ Hhi), Hgt.
    unfold membership_ok in Hmem.
    destruct (values m) as [vs|].
    - rewrite Hmem. crunch self; split; reflexivity.
    - destruct (types m) as [ts|]; [|crunch self; split; reflexivity].
      destruct (isinstance v ts) as [ok|e]; [subst ok|discriminate Hmem].
      crunch self; split; reflexivity. }
  destruct He as [-> ->]. reflexivity.
Qed.

Lemma X9_unorderable_value_is_a_type_error_witness :
  _assert_valid "iters" VNone iters_registry
  = (iters_registry, [],
     Raised (Exn TypeError "'>' not supported between instances of 'NoneType' and 'int'")).
Proof.
  exact (proj1 (X9_unorderable_value_is_a_type_error iters_registry "iters"
                  (Meta (VInt 10) None None EmptyString (VInt 100) (VInt 0) None true false
                        true None false)
                  VNone 100 eq_refl eq_refl eq_refl eq_refl eq_refl)).
Defined.

(** ** Read-only registries are still declared into *)

Lemma declare_ignores_read_only (name : string) (default : value)
    (values : values_arg) (types : types_arg) (desc : string) (upper lower : value)
    (cv : option validator) (an rec : bool) (dep : option string) :
  ignores_read_only (declare name default values types desc upper lower cv an rec dep).
Proof.
  intros b self. destruct (well_formed values types) eqn:Hwf.
  - rewrite !(declare_inserts _ _ _ _ _ _ _ _ _ _ _ _ Hwf).
    cbn [with_read_only _dict _parent_name _read_only _all_recordable].
    match goal with
    | |- context [Self (<[name := ?x]> ?d) ?p b ?a] =>
        set (m := x); set (s' := Self (<[name := m]> d) p b a)
    end.
    match goal with
    | |- context [Self (<[name := m]> ?d) ?p (_read_only self) ?a] =>
        set (s := Self (<[name := m]> d) p (_read_only self) a)
    end.
    destruct (is_Undefined default); [reflexivity|].
    destruct (assert_valid_frame name default s' s m m) as [He Hr];
      [apply lookup_insert_eq | apply lookup_insert_eq | reflexivity | reflexivity |].
    unfold state_of, events_of, result_of in *. simpl. rewrite He, Hr. reflexivity.
  - rewrite !(declare_ill_formed _ _ _ _ _ _ _ _ _ _ _ _ Hwf). reflexivity.
Qed.

(** X10.  Only [__setitem__] looks at [read_only].  [declare] (with the
    validation of its default), [undeclare], [__getitem__], [get] and
    [__contains__] do on a read-only registry exactly what they do on the
    same registry when it is writable: a read-only registry is filled by
    declarations with defaults, and options can be removed from it. *)
Theorem X10_read_only_guards_writes_only (name : string) (default d : value)
    (values : values_arg) (types : types_arg) (desc : string) (upper lower : value)
    (cv : option validator) (an rec : bool) (dep : option string) :
  ignores_read_only (declare name default values types desc upper lower cv an rec dep)
  /\ ignores_read_only (undeclare name)
  /\ ignores_read_only (__getitem__ name)
  /\ ignores_read_only (get name d)
  /\ ignores_read_only (__contains__ name).
Proof.
  split; [apply declare_ignores_read_only|]. split; [|split; [|split]]; intros b self.
  - rewrite !undeclare_run. reflexivity.
  - destruct (_dict self !! name) as [m|] eqn:H.
    + rewrite (getitem_declared name (with_read_only b self) m H),
        (getitem_declared name self m H). reflexivity.
    + rewrite (getitem_undeclared name (with_read_only b self) H),
        (getitem_undeclared name self H). reflexivity.
  - rewrite !get_run. reflexivity.
  - unfold __contains__. rewrite !bind_get_self. reflexivity.
Qed.

(** ** Bulk update that succeeds *)

(** X11.  When [update] returns, every entry of its argument has been
    written: each of its names holds the value given for it and is set, the
    options it does not name are untouched, and the events are those of the
    writes in the order of the entries.  An [update] with nothing in it does
    nothing. *)
Theorem X11_update_applies_every_entry (self : t) (in_dict : list (string * value)) :
  NoDup (map fst in_dict) ->
  result_of (update in_dict self) = Return tt ->
  update in_dict self = write_all in_dict self
  /\ (forall k v, In (k, v) in_dict ->
        content k (state_of (update in_dict self)) = Some (v, true))
  /\ (forall k, ~ In k (map fst in_dict) ->
        _dict (state_of (update in_dict self)) !! k = _dict self !! k)
  /\ update [] self = (self, [], Return tt).
Proof.
  intros Hnd Hr. rewrite (update_write_all _ _ Hnd) in *.
  split; [reflexivity|]. split; [|split; [|reflexivity]].
  - intros k v Hin. exact (write_all_applied in_dict k v self Hnd Hr Hin).
  - intros k Hk. exact (write_all_other in_dict k self Hk).
Qed.

Lemma X11_update_applies_every_entry_witness :
  let o := update [("c", VInt 3); ("a", VInt 1)] two_options in
  content "a" (state_of o) = Some (VInt 1, true)
  /\ content "c" (state_of o) = Some (VInt 3, true)
  /\ _dict (state_of o) !! "b" = _dict two_options !! "b".
Proof.
  destruct (X11_update_applies_every_entry two_options [("c", VInt 3); ("a", VInt 1)]
              ltac:(apply (bool_decide_unpack _); vm_compute; exact I) eq_refl)
    as (_ & Hin & Hout & _).
  split; [exact (Hin "a" (VInt 1) (or_intror (or_introl eq_refl)))|].
  split; [exact (Hin "c" (VInt 3) (or_introl eq_refl))|].
  refine (Hout "b" _). simpl. intros [H|[H|[]]]; discriminate H.
Defined.

(** ** State capture *)

Lemma getstate_run (self : t) :
  __getstate__ self
  = (self, [],
     Return (if _all_recordable self then self
             else with_dict (filter (fun kv => recordable (snd kv) = true) (_dict self))
                            self)).
Proof.
  unfold __getstate__. rewrite bind_get_self. destruct (_all_recordable self); reflexivity.
Qed.

Lemma evolves_flag_sound (s s' : t) : evolves s s' -> flag_sound s -> flag_sound s'.
Proof.
  intros (_ & _ & Ha & Hk) Hs Hflag k m' Hm'. rewrite Ha in Hflag.
  specialize (Hk k). rewrite Hm' in Hk.
  destruct (_dict s !! k) as [m|] eqn:Hm; [|contradiction].
  destruct Hk as (Hd & _). unfold declared_part in Hd.
  injection Hd as _ _ _ _ _ _ _ Hrec _. rewrite Hrec. exact (Hs Hflag k m Hm).
Qed.

Lemma then_unit_state {A} (m : M A) (self : t) :
  state_of (bind m (fun _ => ret tt) self) = state_of (m self).
Proof. exact (proj1 (then_ret_run m (fun _ => tt) self)). Qed.

Lemma invoke_flag_sound (c : call) (s : t) :
  flag_sound s -> flag_sound (state_of (invoke c s)).
Proof.
  intros Hs. destruct c as [name default values types desc upper lower cv an rec dep
                           |name|in_dict|a|key|]; simpl invoke.
  - destruct (well_formed values types) eqn:Hwf.
    + rewrite (declare_state _ _ _ _ _ _ _ _ _ _ _ _ Hwf).
      intros Hflag k m Hm. simpl in Hflag, Hm.
      destruct rec; [|discriminate Hflag].
      destruct (decide (name = k)) as [<-|Hne].
      * rewrite lookup_insert_eq in Hm. injection Hm as <-. reflexivity.
      * rewrite lookup_insert_ne in Hm by exact Hne. exact (Hs Hflag k m Hm).
    + rewrite (declare_ill_formed _ _ _ _ _ _ _ _ _ _ _ _ Hwf). exact Hs.
  - rewrite undeclare_run. intros Hflag k m Hm. simpl in Hflag, Hm.
    apply lookup_delete_Some in Hm as [_ Hm]. exact (Hs Hflag k m Hm).
  - exact (evolves_flag_sound _ _ (update_evolves in_dict s) Hs).
  - rewrite then_unit_state. exact (evolves_flag_sound _ _ (perform_evolves a s) Hs).
  - rewrite then_unit_state. unfold __contains__. rewrite bind_get_self. exact Hs.
  - rewrite then_unit_state, getstate_run. exact Hs.
Qed.

Lemma after_flag_sound (cs : list call) :
  forall s, flag_sound s -> flag_sound (after cs s).
Proof.
  induction cs as [|c cs IH]; intros s Hs; [exact Hs|].
  simpl. apply IH. apply invoke_flag_sound. exact Hs.
Qed.

(** X12.  Whatever is done with a registry after its creation (declarations,
    removals, updates, reads, writes, in any order and whether they raise or
    not), the state that [__getstate__] hands out holds exactly the
    recordable options, each with its whole entry, and the attributes of the
    registry; taking it changes nothing and calls nothing. *)
Theorem X12_captured_state_is_the_recordable_part (parent_name : option string)
    (read_only : bool) (cs : list call) :
  let s := after cs (__init__ parent_name read_only) in
  exists g,
    __getstate__ s = (s, [], Return g)
    /\ _dict g = filter (fun kv => recordable (snd kv) = true) (_dict s)
    /\ _parent_name g = _parent_name s
    /\ _read_only g = _read_only s
    /\ _all_recordable g = _all_recordable s.
Proof.
  intros s.
  assert (Hs : flag_sound s).
  { apply after_flag_sound. intros _ k m Hm. simpl in Hm. rewrite lookup_empty in Hm.
    discriminate Hm. }
  rewrite getstate_run. destruct (_all_recordable s) eqn:Hflag.
  - exists s. split; [reflexivity|]. split; [|repeat split; exact Hflag].
    symmetry. apply map_filter_id. intros k m Hm. exact (Hs Hflag k m Hm).
  - eexists. split; [reflexivity|]. repeat split. exact Hflag.
Qed.

Lemma invoke_keeps_flag_down (c : call) (s : t) :
  _all_recordable s = false -> _all_recordable (state_of (invoke c s)) = false.
Proof.
  intros Hflag. destruct c as [name default values types desc upper lower cv an rec dep
                              |name|in_dict|a|key|]; simpl invoke.
  - destruct (well_formed values types) eqn:Hwf.
    + rewrite (declare_state _ _ _ _ _ _ _ _ _ _ _ _ Hwf). simpl. rewrite Hflag.
      destruct rec; reflexivity.
    + rewrite (declare_ill_formed _ _ _ _ _ _ _ _ _ _ _ _ Hwf). exact Hflag.
  - rewrite undeclare_run. exact Hflag.
  - destruct (update_evolves in_dict s) as (_ & _ & -> & _). exact Hflag.
  - rewrite then_unit_state. destruct (perform_evolves a s) as (_ & _ & -> & _). exact Hflag.
  - rewrite then_unit_state. unfold __contains__. rewrite bind_get_self. exact Hflag.
  - rewrite then_unit_state, getstate_run. exact Hflag.
Qed.

Lemma after_keeps_flag_down (cs : list call) :
  forall s, _all_recordable s = false -> _all_recordable (after cs s) = false.
Proof.
  induction cs as [|c cs IH]; intros s H; [exact H|].
  simpl. apply IH. apply invoke_keeps_flag_down. exact H.
Qed.

(** X13.  Declaring an option with [recordable=False] clears the flag
    [_all_recordable] of the registry, and no later call sets it again: not
    the removal of that option, not its redeclaration as recordable.  From
    then on [__getstate__] hands out a filtered copy. *)
Theorem X13_recordable_flag_stays_cleared (self : t) (name : string) (default : value)
    (values : values_arg) (types : types_arg) (desc : string) (upper lower : value)
    (cv : option validator) (an : bool) (dep : option string) (cs : list call) :
  well_formed values types = true ->
  let s := after (CallDeclare name default values types desc upper lower cv an false dep :: cs)
                 self in
  _all_recordable s = false
  /\ result_of (__getstate__ s)
     = Return (with_dict (filter (fun kv => recordable (snd kv) = true) (_dict s)) s).
Proof.
  intros Hwf s.
  assert (Hflag : _all_recordable s = false).
  { subst s. simpl after. apply after_keeps_flag_down.
    rewrite (declare_state _ _ _ _ _ _ _ _ _ _ _ _ Hwf). reflexivity. }
  split; [exact Hflag|]. rewrite getstate_run, Hflag. reflexivity.
Qed.

Lemma X13_recordable_flag_stays_cleared_witness :
  let s := after [CallDeclare "tmp" (VInt 1) (ValuesOther VNone) (TypesOther VNone) EmptyString
                          VNone VNone None false false None;
                  CallUndeclare "tmp"] iters_registry in
  _all_recordable s = false /\ _dict s !! "tmp" = None.
Proof.
  split; [|reflexivity].
  exact (proj1 (X13_recordable_flag_stays_cleared iters_registry "tmp" (VInt 1)
                  (ValuesOther VNone) (TypesOther VNone) EmptyString VNone VNone None
                  false None [CallUndeclare "tmp"] eq_refl)).
Defined.

(** ** A default of [None] *)

(** X14.  [None] is a valid default for any option without a custom
    validator: whatever [values], [types] and bounds are declared, and also
    with [allow_none=False], a well formed declaration with [default=None]
    returns without calling anything, the entry allows [None] from then on,
    reading the option returns [None], and [None] can be written again. *)
Theorem X14_default_none_is_always_valid (self : t) (name : string)
    (values : values_arg) (types : types_arg) (desc : string) (upper lower : value)
    (an rec : bool) (dep : option string) :
  well_formed values types = true ->
  let o := declare name VNone values types desc upper lower None an rec dep self in
  result_of o = Return tt
  /\ events_of o = []
  /\ (allow_none <$> _dict (state_of o) !! name) = Some true
  /\ result_of (__getitem__ name (state_of o)) = Return VNone
  /\ (_read_only self = false ->
      result_of (__setitem__ name VNone (state_of o)) = Return tt).
Proof.
  intros Hwf o. subst o.
  rewrite (declare_state _ _ _ _ _ _ _ _ _ _ _ _ Hwf).
  rewrite (declare_inserts _ _ _ _ _ _ _ _ _ _ _ _ Hwf).
  simpl is_Undefined. cbv iota. simpl negb. simpl is_None. cbv iota.
  match goal with
  | |- context [Self (<[name := ?x]> ?d) ?p ?r ?a] =>
      set (m := x); set (s := Self (<[name := m]> d) p r a)
  end.
  assert (H : _dict s !! name = Some m) by apply lookup_insert_eq.
  assert (Hv : _assert_valid name VNone s = (s, [], Return tt)).
  { open_assert_valid H. reflexivity. }
  rewrite Hv. unfold result_of at 1, events_of at 1. simpl.
  split; [reflexivity|]. split; [reflexivity|].
  split; [rewrite lookup_insert_eq; reflexivity|].
  split; [rewrite (getitem_declared _ _ _ H); reflexivity|].
  intros Hro. rewrite (setitem_writable name VNone s m Hro H), Hv. reflexivity.
Qed.

Lemma X14_default_none_is_always_valid_witness :
  let o := declare "mode" VNone (ValuesSeq (Container KList [VStr "fwd"; VStr "rev"]))
                   (TypesOther VNone) EmptyString VNone VNone None false true None
                   (__init__ None false) in
  result_of o = Return tt
  /\ result_of (__getitem__ "mode" (state_of o)) = Return VNone.
Proof.
  destruct (X14_default_none_is_always_valid (__init__ None false) "mode"
              (ValuesSeq (Container KList [VStr "fwd"; VStr "rev"])) (TypesOther VNone)
              EmptyString VNone VNone false true None eq_refl)
    as (Hr & _ & _ & Hget & _).
  split; [exact Hr | exact Hget].
Defined.

(** ** The text of the table *)

Lemma length_app (s1 s2 : string) :
  String.length (s1 +:+ s2) = (String.length s1 + String.length s2)%nat.
Proof.
  induction s1 as [|a s1 IH]; [reflexivity|].
  change (S (String.length (s1 +:+ s2)) = S (String.length s1 + String.length s2)).
  rewrite IH. reflexivity.
Qed.

Lemma app_empty_r (s : string) : s +:+ EmptyString = s.
Proof.
  induction s as [|a s IH]; [reflexivity|].
  change (String a (s +:+ EmptyString) = String a s). rewrite IH. reflexivity.
Qed.

Lemma app_assoc_str (s1 s2 s3 : string) : (s1 +:+ s2) +:+ s3 = s1 +:+ (s2 +:+ s3).
Proof.
  induction s1 as [|a s1 IH]; [reflexivity|].
  change (String a ((s1 +:+ s2) +:+ s3) = String a (s1 +:+ (s2 +:+ s3))).
  rewrite IH. reflexivity.
Qed.

Lemma take_drop (n : nat) (s : string) : str_take n s +:+ str_drop n s = s.
Proof.
  revert s. induction n as [|n IH]; intros [|a s]; try reflexivity.
  change (String a (str_take n s +:+ str_drop n s) = String a s). rewrite IH. reflexivity.
Qed.

Lemma length_take (n : nat) (s : string) :
  String.length (str_take n s) = Nat.min n (String.length s).
Proof.
  revert s. induction n as [|n IH]; intros [|a s]; simpl; try reflexivity.
  rewrite IH. reflexivity.
Qed.

Lemma length_drop (n : nat) (s : string) :
  String.length (str_drop n s) = (String.length s - n)%nat.
Proof.
  revert s. induction n as [|n IH]; intros [|a s]; simpl; try reflexivity. apply IH.
Qed.

Lemma length_blank (n : nat) : String.length (blank n) = n.
Proof. induction n as [|n IH]; simpl; [reflexivity | rewrite IH; reflexivity]. Qed.

Lemma drop_blank (n : nat) (s : string) : str_drop n (blank n +:+ s) = s.
Proof. induction n as [|n IH]; [destruct s; reflexivity | exact IH]. Qed.

Lemma take_blank (n : nat) (s : string) : str_take n (blank n +:+ s) = blank n.
Proof.
  induction n as [|n IH]; [destruct s; reflexivity|].
  change (String space_char (str_take n (blank n +:+ s)) = String space_char (blank n)).
  rewrite IH. reflexivity.
Qed.

Lemma slice_to_from (s : string) (i : Z) : py_slice_to s i +:+ py_slice_from s i = s.
Proof. apply take_drop. Qed.

Lemma len_slice_to (s : string) (i : Z) :
  (0 <= i)%Z -> (py_len (py_slice_to s i) <= i)%Z.
Proof.
  intros Hi. unfold py_slice_to, py_len, slice_bound. rewrite length_take.
  destruct (Z.ltb_spec i 0); lia.
Qed.

Lemma join_cons (sep x y : string) (l : list string) :
  join sep (x :: y :: l) = x +:+ sep +:+ join sep (y :: l).
Proof. reflexivity. Qed.

Lemma split_on_nonempty (c : Ascii.ascii) (s : string) : py_split_on c s <> [].
Proof.
  destruct s as [|a s]; simpl; [discriminate|].
  destruct (Ascii.eqb a c); [discriminate|].
  destruct (py_split_on c s); discriminate.
Qed.

Lemma join_split_on (c : Ascii.ascii) (s : string) :
  join (String c EmptyString) (py_split_on c s) = s.
Proof.
  induction s as [|a s IH]; [reflexivity|].
  change (py_split_on c (String a s))
    with (if Ascii.eqb a c then EmptyString :: py_split_on c s
          else match py_split_on c s with
               | part :: parts => String a part :: parts
               | [] => [String a EmptyString]
               end).
  pose proof (split_on_nonempty c s) as Hne.
  destruct (py_split_on c s) as [|part parts]; [congruence|].
  destruct (Ascii.eqb_spec a c) as [->|Hac].
  - rewrite join_cons, IH. reflexivity.
  - destruct parts as [|part' parts].
    + change (join (String c EmptyString) [part]) with part in IH. subst part.
      reflexivity.
    + rewrite join_cons in *. rewrite <- IH. reflexivity.
Qed.

Lemma str_lines_join (table : string) (width : Z) :
  __str__ table width = join newline (str_lines table width).
Proof. unfold __str__, str_lines. destruct (_ <? 10)%Z; reflexivity. Qed.

Lemma py_sum_nonneg (l : list Z) : Forall (fun x => 0 <= x)%Z l -> (0 <= py_sum l)%Z.
Proof. induction 1 as [|x l Hx _ IH]; simpl; lia. Qed.

Lemma removelast_incl {A} (l : list A) (x : A) : In x (removelast l) -> In x l.
Proof.
  induction l as [|y l IH]; [intros []|]. simpl. destruct l as [|z l]; [intros []|].
  intros [->|Hin]; [left; reflexivity | right; exact (IH Hin)].
Qed.

Lemma description_column_nonneg (rst : list string) :
  py_split (hd EmptyString rst) <> [] -> (0 <= description_column rst)%Z.
Proof.
  intros Hne. unfold description_column.
  set (words := py_split (hd EmptyString rst)) in *.
  assert (Hsum : (0 <= py_sum (removelast (map py_len words)))%Z).
  { apply py_sum_nonneg. apply List.Forall_forall. intros x Hx.
    apply removelast_incl in Hx. apply in_map_iff in Hx as (w & <- & _).
    unfold py_len. lia. }
  assert (Hlen : (1 <= Z.of_nat (length (map py_len words)))%Z).
  { rewrite length_map. destruct words; [congruence | simpl; lia]. }
  lia.
Qed.

Lemma wrap_rest_fits (fuel : nat) (desc_col desc_len : Z) :
  (0 <= desc_col)%Z -> (0 <= desc_len)%Z ->
  forall row, Forall (fun line => py_len line <= desc_col + desc_len)%Z
                     (wrap_rest fuel desc_col desc_len row).
Proof.
  intros Hc Hl. induction fuel as [|fuel IH]; intros row; [constructor|].
  simpl. destruct (py_len row >? 0)%Z; [|constructor].
  constructor; [|apply IH].
  pose proof (len_slice_to row desc_len Hl) as Hs.
  unfold py_len in *. rewrite length_app. unfold spaces. rewrite length_blank. lia.
Qed.

Lemma wrap_row_fits (width desc_col : Z) (row : string) :
  (0 <= desc_col)%Z -> (10 <= width - desc_col)%Z ->
  Forall (fun line => py_len line <= width)%Z
         (wrap_row width desc_col (width - desc_col) row).
Proof.
  intros Hc Hl. unfold wrap_row.
  destruct (Z.gtb_spec (py_len row) width) as [Hlong|Hshort].
  - constructor; [apply len_slice_to; lia|].
    destruct (negb (String.prefix "===" row)); [|constructor].
    eapply Forall_impl; [apply wrap_rest_fits; lia|]. intros line Hline. simpl in Hline. lia.
  - constructor; [exact Hshort | constructor].
Qed.

(** X15.  When the first line of the table shows at least one column and
    the last column is left at least ten characters by [width], no line of
    the text that [__str__] returns is longer than [width]: rows that are
    too long are cut at [width] and what remains of them is carried over to
    further lines, indented to the last column. *)
Theorem X15_str_keeps_lines_within_width (table : string) (width : Z) :
  py_split (hd EmptyString (__rst__ table)) <> [] ->
  (10 <= width - description_column (__rst__ table))%Z ->
  __str__ table width = join newline (str_lines table width)
  /\ Forall (fun line => py_len line <= width)%Z (str_lines table width).
Proof.
  intros Hcols Hroom. split; [apply str_lines_join|].
  unfold str_lines, __rst__ in *.
  set (rst := py_split_on newline_char table) in *.
  destruct (Z.ltb_spec (width - description_column rst) 10) as [Hlt|_]; [lia|].
  apply Forall_concat. apply Forall_map. apply List.Forall_forall. intros row _.
  apply wrap_row_fits; [apply description_column_nonneg; exact Hcols | exact Hroom].
Qed.

Lemma X15_str_keeps_lines_within_width_witness :
  Forall (fun line => py_len line <= 31)%Z (str_lines sample_table 31)
  /\ length (str_lines sample_table 31) = 9.
Proof.
  split; [|reflexivity].
  exact (proj2 (X15_str_keeps_lines_within_width sample_table 31
                  ltac:(vm_compute; discriminate) ltac:(vm_compute; discriminate))).
Defined.

Lemma concat_map_single {A} (f : A -> list A) (l : list A) :
  Forall (fun x => f x = [x]) l -> concat (map f l) = l.
Proof.
  induction 1 as [|x l Hx _ IH]; [reflexivity|]. simpl. rewrite Hx, IH. reflexivity.
Qed.

(** X16.  [__str__] returns the table as [to_table] gave it, character for
    character, when [width] leaves fewer than ten characters to the last
    column (the table is then not wrapped at all, however long its rows are)
    and when no row is longer than [width]. *)
Theorem X16_str_leaves_table_that_fits (table : string) (width : Z) :
  (width - description_column (__rst__ table) < 10)%Z
  \/ Forall (fun row => py_len row <= width)%Z (__rst__ table) ->
  __str__ table width = table.
Proof.
  intros H. unfold __str__, __rst__ in *.
  set (rst := py_split_on newline_char table) in *.
  destruct (Z.ltb_spec (width - description_column rst) 10) as [Hlt|Hge].
  - apply join_split_on.
  - destruct H as [H|H]; [lia|].
    rewrite concat_map_single; [apply join_split_on|].
    eapply Forall_impl; [exact H|]. intros row Hrow. simpl in Hrow. unfold wrap_row.
    destruct (Z.gtb_spec (py_len row) width); [lia | reflexivity].
Qed.

Lemma X16_str_leaves_table_that_fits_witness :
  __str__ sample_table 30 = sample_table /\ __str__ sample_table 80 = sample_table.
Proof.
  split.
  - refine (X16_str_leaves_table_that_fits sample_table 30 (or_introl _)).
    vm_compute. reflexivity.
  - refine (X16_str_leaves_table_that_fits sample_table 80 (or_intror _)).
    vm_compute. repeat constructor; discriminate.
Defined.

Lemma join_empty_cons (x : string) (l : list string) :
  join EmptyString (x :: l) = x +:+ join EmptyString l.
Proof. destruct l; [symmetry; apply app_empty_r | reflexivity]. Qed.

Lemma wrap_rest_spells (desc_col desc_len : Z) :
  (1 <= desc_len)%Z ->
  forall (fuel : nat) (row : string),
    (String.length row <= fuel)%nat ->
    join EmptyString
         (map (str_drop (Z.to_nat desc_col)) (wrap_rest fuel desc_col desc_len row))
    = row
    /\ Forall (fun line => str_take (Z.to_nat desc_col) line = spaces desc_col)
              (wrap_rest fuel desc_col desc_len row).
Proof.
  intros Hl. induction fuel as [|fuel IH]; intros row Hfuel.
  - destruct row; [split; [reflexivity | constructor] | simpl in Hfuel; lia].
  - simpl. destruct (Z.gtb_spec (py_len row) 0) as [Hpos|Hzero].
    + assert (Hb : (1 <= slice_bound row desc_len)%nat).
      { unfold slice_bound. destruct (Z.ltb_spec desc_len 0); lia. }
      destruct (IH (py_slice_from row desc_len)) as [Hrest Hind].
      { unfold py_slice_from. rewrite length_drop. unfold py_len in Hpos. lia. }
      split.
      * rewrite map_cons, join_empty_cons, Hrest. unfold spaces.
        rewrite drop_blank. apply slice_to_from.
      * constructor; [apply take_blank | exact Hind].
    + destruct row; [split; [reflexivity | constructor]|].
      unfold py_len in Hzero. simpl in Hzero. lia.
Qed.

(** X17.  Wrapping loses no text.  A row that is longer than [width] gives
    its first [width] characters as a line; if it is a border (it starts
    with [===]) that is all of it; otherwise the lines that follow all start
    with the indentation of the last column, and what they hold after it,
    put end to end, is the rest of the row without its trailing spaces: the
    loop that cuts the rest into pieces always comes to its end. *)
Theorem X17_wrapped_row_keeps_its_text (width desc_col desc_len : Z) (row : string) :
  (py_len row > width)%Z ->
  (1 <= desc_len)%Z ->
  exists rest,
    wrap_row width desc_col desc_len row = py_slice_to row width :: rest
    /\ Forall (fun line => str_take (Z.to_nat desc_col) line = spaces desc_col) rest
    /\ join EmptyString (map (str_drop (Z.to_nat desc_col)) rest)
       = (if String.prefix "===" row then EmptyString
          else py_rstrip (py_slice_from row width)).
Proof.
  intros Hlong Hl. unfold wrap_row.
  destruct (Z.gtb_spec (py_len row) width) as [_|Hshort]; [|lia].
  destruct (String.prefix "===" row); simpl negb; cbv iota.
  - exists []. repeat split. constructor.
  - eexists. split; [reflexivity|].
    destruct (wrap_rest_spells desc_col desc_len Hl
                (String.length (py_rstrip (py_slice_from row width)))
                (py_rstrip (py_slice_from row width)) (le_n _)) as [Hspell Hind].
    split; [exact Hind | exact Hspell].
Qed.

Lemma X17_wrapped_row_keeps_its_text_witness :
  exists rest,
    wrap_row 31 21 10 "iters     10         The maximum number of iterations allowed   "
    = "iters     10         The maximu" :: rest
    /\ join EmptyString (map (str_drop 21) rest) = "m number of iterations allowed".
Proof.
  destruct (X17_wrapped_row_keeps_its_text 31 21 10
              "iters     10         The maximum number of iterations allowed   ")
    as (rest & Hrow & _ & Htext); [vm_compute; reflexivity | vm_compute; discriminate |].
  exists rest. split; [exact Hrow | exact Htext].
Defined.

(** ** The table of the options *)

Lemma sorted_keys_spec (self : t) :
  Sorted String.le (sorted_keys self)
  /\ NoDup (sorted_keys self)
  /\ forall k, k ∈ sorted_keys self <-> is_Some (_dict self !! k).
Proof.
  unfold sorted_keys. split; [apply Sorted_merge_sort; apply _|].
  split.
  - rewrite merge_sort_Permutation. apply NoDup_fst_map_to_list.
  - intros k. rewrite merge_sort_Permutation, list_elem_of_fmap. split.
    + intros ([k' m] & -> & Hin). apply elem_of_map_to_list in Hin. eexists; exact Hin.
    + intros [m Hm]. exists (k, m). split; [reflexivity|].
      apply elem_of_map_to_list. exact Hm.
Qed.

Lemma rows_of_keys (self : t) (keys : list string) :
  (forall k, k ∈ keys -> is_Some (_dict self !! k)) ->
  Forall2 (fun k row => exists m, _dict self !! k = Some m /\ row = table_row k m)
          keys (omap (fun key => table_row key <$> _dict self !! key) keys).
Proof.
  induction keys as [|k keys IH]; intros Hall; [constructor|].
  destruct (Hall k) as [m Hm]; [left|]. simpl. rewrite Hm. simpl.
  constructor; [exists m; split; [exact Hm | reflexivity]|].
  apply IH. intros k' Hk'. apply Hall. right. exact Hk'.
Qed.

(** X18.  The rows that [to_table] gives to [tabulate] are the header and
    then one row for each declared option, in the ascending order of the
    names and with no name twice; the row of an option is built from its
    entry, and it has the sixth cell, for the deprecation message, only if
    the option is deprecated.  Building the table reads the registry and
    nothing more: no notice is consumed, and an option without a value is
    shown, not refused. *)
Theorem X18_table_has_a_sorted_row_per_option (self : t) :
  Sorted String.le (sorted_keys self)
  /\ NoDup (sorted_keys self)
  /\ (forall k, k ∈ sorted_keys self <-> is_Some (_dict self !! k))
  /\ (exists rows,
        tlist self = table_header :: rows
        /\ Forall2 (fun k row => exists m, _dict self !! k = Some m /\ row = table_row k m)
                   (sorted_keys self) rows)
  /\ (forall k m, length (table_row k m)
                  = if bool_decide (is_Some (deprecation m)) then 6%nat else 5%nat)
  /\ (forall (tabulate : tabulate_fn) (fmt missingval : string),
        to_table (Some tabulate) fmt missingval self
        = (self, [], Return (tabulate (tlist self) fmt missingval))).
Proof.
  destruct (sorted_keys_spec self) as (Hsorted & Hnodup & Hkeys).
  split; [exact Hsorted|]. split; [exact Hnodup|]. split; [exact Hkeys|].
  split; [|split].
  - eexists. split; [reflexivity|]. apply rows_of_keys. intros k Hk. apply Hkeys. exact Hk.
  - intros k m. unfold table_row. destruct (deprecation m); reflexivity.
  - intros tabulate fmt missingval. unfold to_table. rewrite bind_get_self. reflexivity.
Qed.

(** ** Defaults are validated as writes are *)

(** X20.  A default goes through the checks that a write goes through.  On
    a registry that is not read-only, a well formed declaration with a
    default (other than [None], which turns [allow_none] on) ends as the
    write of that default does after the same declaration made without a
    default: both return, or both raise the same exception.  The two ways
    leave the option with the same value, set: a rejected default is stored
    all the same, while a rejected write leaves the option unset. *)
Theorem X20_default_is_validated_as_a_write (self : t) (name : string) (default : value)
    (values : values_arg) (types : types_arg) (desc : string) (upper lower : value)
    (cv : option validator) (an rec : bool) (dep : option string) :
  well_formed values types = true ->
  _read_only self = false ->
  is_Undefined default = false ->
  is_None default = false ->
  let declared := declare name default values types desc upper lower cv an rec dep self in
  let unset := state_of (declare name VUndefined values types desc upper lower cv an rec
                                 dep self) in
  result_of declared = result_of (__setitem__ name default unset)
  /\ content name (state_of declared) = Some (default, true)
  /\ content name (state_of (__setitem__ name default unset))
     = match result_of declared with
       | Return _ => Some (default, true)
       | Raised _ => Some (VUndefined, false)
       end.
Proof.
  intros Hwf Hro Hu Hn declared unset. subst declared unset.
  rewrite !(declare_state _ _ _ _ _ _ _ _ _ _ _ _ Hwf).
  rewrite (declare_inserts _ _ _ _ _ _ _ _ _ _ _ _ Hwf).
  rewrite Hu, Hn. simpl is_Undefined. simpl negb. simpl andb. cbv iota.
  match goal with
  | |- context [_assert_valid name default (Self (<[name := ?x]> ?d) ?p ?r ?a)] =>
      set (m := x); set (s := Self (<[name := m]> d) p r a)
  end.
  match goal with
  | |- context [__setitem__ name default (Self (<[name := ?x]> ?d) ?p ?r ?a)] =>
      set (m0 := x); set (s0 := Self (<[name := m0]> d) p r a)
  end.
  assert (H : _dict s !! name = Some m) by apply lookup_insert_eq.
  assert (H0 : _dict s0 !! name = Some m0) by apply lookup_insert_eq.
  destruct (assert_valid_frame name default s s0 m m0 H H0 eq_refl eq_refl) as [_ Hr].
  assert (Hro0 : _read_only s0 = false) by exact Hro.
  rewrite (setitem_writable name default s0 m0 Hro0 H0). rewrite <- Hr.
  unfold result_of at 1. simpl.
  assert (Hc : content name s = Some (default, true)).
  { unfold content. rewrite H. reflexivity. }
  destruct (result_of (_assert_valid name default s)) as [[]|e].
  - split; [reflexivity|]. split; [exact Hc|].
    unfold content, state_of. simpl. rewrite lookup_insert_eq. reflexivity.
  - split; [reflexivity|]. split; [exact Hc|].
    unfold content, state_of, noticed. simpl. rewrite lookup_insert_eq. reflexivity.
Qed.

Lemma X20_default_is_validated_as_a_write_witness :
  result_of bad_default
  = result_of (__setitem__ "mode" (VInt 5)
                 (state_of (declare "mode" VUndefined
                                    (ValuesSeq (Container KList [VInt 1; VInt 2]))
                                    (TypesOther VNone) EmptyString VNone VNone None false
                                    true None (__init__ None false)))).
Proof.
  exact (proj1 (X20_default_is_validated_as_a_write (__init__ None false) "mode" (VInt 5)
                  (ValuesSeq (Container KList [VInt 1; VInt 2])) (TypesOther VNone)
                  EmptyString VNone VNone None false true None
                  eq_refl eq_refl eq_refl eq_refl)).
Defined.

End OptionsDictionary.

(** * The slices of the scaling report *)

Lemma slice_assign_length {A} (l : list A) (start stop : nat) (new : list A) :
  (start <= stop)%nat -> (stop <= length l)%nat -> length new = (stop - start)%nat ->
  length (slice_assign l start stop new) = length l.
Proof.
  intros H1 H2 Hn. unfold slice_assign.
  rewrite !length_app, length_take, length_drop, Hn. lia.
Qed.

Lemma slice_assign_lookup {A} (l : list A) (start stop : nat) (x : A) (j : nat) :
  (start <= stop)%nat -> (stop <= length l)%nat ->
  slice_assign l start stop (replicate (stop - start) x) !! j
  = if bool_decide (start <= j < stop)%nat then Some x else l !! j.
Proof.
  intros H1 H2. unfold slice_assign.
  destruct (decide (j < start)%nat) as [Hlt|Hge].
  - rewrite lookup_app_l by (rewrite length_take; lia).
    rewrite lookup_take_lt by lia. rewrite bool_decide_eq_false_2 by lia. reflexivity.
  - rewrite lookup_app_r by (rewrite length_take; lia). rewrite length_take.
    replace (Nat.min start (length l)) with start by lia.
    destruct (decide (j < stop)%nat) as [Hin|Hout].
    + rewrite lookup_app_l by (rewrite length_replicate; lia).
      rewrite bool_decide_eq_true_2 by lia. apply lookup_replicate_2. lia.
    + rewrite lookup_app_r by (rewrite length_replicate; lia).
      rewrite length_replicate, lookup_drop, bool_decide_eq_false_2 by lia.
      f_equal. lia.
Qed.

Lemma fill_slices_spec (vals : list (string * nat)) :
  forall (start : nat) (names : list (option string)),
    (start + total_size vals <= length names)%nat ->
    let slices := fst (fill_slices vals start names) in
    let names' := snd (fill_slices vals start names) in
    length names' = length names
    /\ (forall j, (j < start \/ start + total_size vals <= j)%nat ->
                  names' !! j = names !! j)
    /\ Forall2 (fun nv sl => fst sl = fst nv
                             /\ snd (snd sl) = (fst (snd sl) + snd nv)%nat)
               vals slices
    /\ (forall i n a b, slices !! i = Some (n, (a, b)) ->
          a = (start + total_size (take i vals))%nat
          /\ forall j, (a <= j < b)%nat -> names' !! j = Some (Some n)).
Proof.
  induction vals as [|[n size] vals IH]; intros start names Hlen.
  - simpl. split; [reflexivity|]. split; [reflexivity|]. split; [constructor|].
    intros i n a b Hi. rewrite lookup_nil in Hi. discriminate Hi.
  - simpl in Hlen. simpl fill_slices.
    set (stop := (start + size)%nat).
    set (names1 := slice_assign names start stop (replicate (stop - start) (Some n))).
    assert (Hlen1 : length names1 = length names).
    { apply slice_assign_length; [lia | lia | apply length_replicate]. }
    specialize (IH stop names1). rewrite Hlen1 in IH.
    destruct IH as (IHlen & IHout & IHsl & IHin); [lia|].
    destruct (fill_slices vals stop names1) as [slices names2]. simpl in *.
    assert (Hlook : forall j, names1 !! j
                    = if bool_decide (start <= j < stop)%nat then Some (Some n)
                      else names !! j).
    { intros j. apply slice_assign_lookup; lia. }
    split; [exact IHlen|]. split; [|split].
    + intros j Hj. rewrite IHout by lia. rewrite Hlook.
      rewrite bool_decide_eq_false_2 by lia. reflexivity.
    + constructor; [split; reflexivity | exact IHsl].
    + intros [|i] n' a b Hi.
      * simpl in Hi. injection Hi as <- <- <-. split; [simpl; lia|].
        intros j Hj. rewrite IHout by lia. rewrite Hlook.
        rewrite bool_decide_eq_true_2 by lia. reflexivity.
      * simpl in Hi. destruct (IHin i n' a b Hi) as [Ha Hj].
        split; [simpl; lia | exact Hj].
Qed.

(** X19.  The slices that [compute_jac_view_info] stores tile the rows.
    When the array of names has room for all the values, the loop stores
    one slice per name, in the order of the dict; the slice of a name starts
    where the sizes of the names before it end (the first at 0) and is as
    long as the size of its array; every position inside the slice of a name
    holds that name, and the array of names keeps its length. *)
Theorem X19_slices_tile_the_names (vals : list (string * nat))
    (names : list (option string)) :
  (total_size vals <= length names)%nat ->
  let slices := fst (fill_slices vals 0 names) in
  let names' := snd (fill_slices vals 0 names) in
  length names' = length names
  /\ map fst slices = map fst vals
  /\ (forall i n a b, slices !! i = Some (n, (a, b)) ->
        a = total_size (take i vals)
        /\ (exists size, vals !! i = Some (n, size) /\ b = (a + size)%nat)
        /\ forall j, (a <= j < b)%nat -> names' !! j = Some (Some n))
  /\ (forall j, (total_size vals <= j)%nat -> names' !! j = names !! j).
Proof.
  intros Hlen slices names'.
  destruct (fill_slices_spec vals 0 names Hlen) as (Hl & Hout & Hsl & Hin).
  fold slices names' in Hl, Hout, Hsl, Hin.
  split; [exact Hl|]. split; [|split].
  - clear -Hsl. induction Hsl as [|nv sl vals' slices' [Hn _] _ IH]; [reflexivity|].
    simpl. rewrite Hn, IH. reflexivity.
  - intros i n a b Hi. destruct (Hin i n a b Hi) as [Ha Hj].
    split; [exact Ha|]. split; [|exact Hj].
    destruct (Forall2_lookup_r _ _ _ _ _ Hsl Hi) as ([n' size] & Hv & Hn & Hb).
    simpl in *. subst n'. exists size. split; [exact Hv | exact Hb].
  - intros j Hj. apply Hout. right. simpl. exact Hj.
Qed.

Lemma X19_slices_tile_the_names_witness :
  fill_slices [("con", 2%nat); ("obj", 1%nat)] 0 [None; None; None]
  = ([("con", (0, 2)%nat); ("obj", (2, 3)%nat)], [Some "con"; Some "con"; Some "obj"])
  /\ length (snd (fill_slices [("con", 2%nat); ("obj", 1%nat)] 0 [None; None; None])) = 3%nat.
Proof.
  split; [reflexivity|].
  refine (proj1 (X19_slices_tile_the_names [("con", 2%nat); ("obj", 1%nat)]
                   [None; None; None] _)).
  simpl. lia.
Defined.
